(** * vibe-todo-frontend: the REST client and the view's handlers

    A shallow embedding of [src/api/todoApi.js] and of the event handlers
    of [src/App.jsx], with the properties of the written specification
    stated and proved over it.

    Layout:
    - [JsString]: ECMAScript strings as sequences of UTF-16 code units,
      with the few [String.prototype] methods the program calls;
    - [JsValue], [Json]: the dynamically typed values the program inspects;
    - [Host]: what the browser supplies ([fetch], [JSON.parse], [Date],
      [confirm], the build-time environment);
    - [Completion] and the monad [M] of the asynchronous functions: the
      view's state and the trace of what was sent travel through [M],
      exceptions included;
    - [todoApi]: the four request functions and [handleResponseError];
    - [App]: the component's state and its handlers;
    - sample data, then the properties and their instances.

    Not modelled: [console.error], [formatDate] (locale-dependent
    formatting), the JSX beyond the two tests kept at the end of [App],
    and the interleaving of two actions: an action runs from start to
    end. *)

From Stdlib Require Import NArith String Ascii DecimalString.
From stdpp Require Import base option list strings gmap.

Local Open Scope N_scope.
Set Warnings "-register-all".

(** ** ECMAScript strings *)

(** A string value is a finite sequence of 16-bit code units; [length],
    [substring], [trim] and [includes] all count code units. *)
Abbreviation jsstring := (list N).

Module JsString.

(** Reading of a source literal.  The literals of the program are kept
    as they are written in the source files (UTF-8); [utf8_points]
    recovers their code points and [utf16_units] the code units the
    engine stores. *)
Fixpoint utf8_points (bs : list N) : list N :=
  match bs with
  | [] => []
  | b0 :: t0 =>
      if b0 <? 0x80 then b0 :: utf8_points t0
      else if b0 <? 0xE0 then
        match t0 with
        | b1 :: t1 =>
            N.lor (N.shiftl (N.land b0 0x1F) 6) (N.land b1 0x3F)
              :: utf8_points t1
        | _ => []
        end
      else if b0 <? 0xF0 then
        match t0 with
        | b1 :: b2 :: t2 =>
            N.lor (N.shiftl (N.land b0 0x0F) 12)
              (N.lor (N.shiftl (N.land b1 0x3F) 6) (N.land b2 0x3F))
              :: utf8_points t2
        | _ => []
        end
      else
        match t0 with
        | b1 :: b2 :: b3 :: t3 =>
            N.lor (N.shiftl (N.land b0 0x07) 18)
              (N.lor (N.shiftl (N.land b1 0x3F) 12)
                 (N.lor (N.shiftl (N.land b2 0x3F) 6) (N.land b3 0x3F)))
              :: utf8_points t3
        | _ => []
        end
  end.

Definition utf16_units (cp : N) : list N :=
  if cp <? 0x10000 then [cp]
  else
    let v := cp - 0x10000 in
    [0xD800 + N.shiftr v 10; 0xDC00 + N.land v 0x3FF].

Definition js (s : string) : jsstring :=
  utf8_points (N_of_ascii <$> list_ascii_of_string s) ≫= utf16_units.

(** WhiteSpace and LineTerminator of ECMA-262, the code units that
    [String.prototype.trim] strips. *)
Definition is_space (c : N) : bool :=
  ((0x09 <=? c) && (c <=? 0x0D))
  || (c =? 0x20) || (c =? 0xA0) || (c =? 0x1680)
  || ((0x2000 <=? c) && (c <=? 0x200A))
  || (c =? 0x2028) || (c =? 0x2029) || (c =? 0x202F)
  || (c =? 0x205F) || (c =? 0x3000) || (c =? 0xFEFF).

Fixpoint trimStart (s : jsstring) : jsstring :=
  match s with
  | c :: t => if is_space c then trimStart t else s
  | [] => []
  end.

Definition trimEnd (s : jsstring) : jsstring :=
  reverse (trimStart (reverse s)).

Definition trim (s : jsstring) : jsstring := trimEnd (trimStart s).

(** [s.substring(0, n)] *)
Definition substring0 (n : nat) (s : jsstring) : jsstring := take n s.

Fixpoint startsWith (needle s : jsstring) : bool :=
  match needle, s with
  | [], _ => true
  | _ :: _, [] => false
  | a :: needle', b :: s' => (a =? b) && startsWith needle' s'
  end.

(** [s.includes(needle)] *)
Fixpoint includes (needle s : jsstring) : bool :=
  startsWith needle s
  || match s with
     | [] => false
     | _ :: s' => includes needle s'
     end.

(** Truthiness of a string: the empty string alone is falsy. *)
Definition truthy (s : jsstring) : bool :=
  match s with [] => false | _ :: _ => true end.

(** Decimal rendering of a natural number, as a template literal
    renders an integral Number. *)
Definition of_N (n : N) : jsstring :=
  js (NilEmpty.string_of_uint (N.to_uint n)).

(** Decimal rendering of an integer, [String(n)] for an integral Number
    of either sign. *)
Definition of_Z (z : Z) : jsstring :=
  if (z <? 0)%Z then js "-" ++ of_N (Z.to_N (- z)) else of_N (Z.to_N z).

(** [s.padStart(n, pad)]: [pad] is repeated, and cut, to fill the
    [n - s.length] missing code units; a string long enough, or an empty
    [pad], leaves [s] as it is. *)
Fixpoint fill (k : nat) (pad rest : jsstring) : jsstring :=
  match k with
  | O => []
  | S k' =>
      match rest with
      | c :: rest' => c :: fill k' pad rest'
      | [] =>
          match pad with
          | c :: pad' => c :: fill k' pad pad'
          | [] => []
          end
      end
  end.

Definition padStart (n : nat) (pad s : jsstring) : jsstring :=
  fill (n - length s) pad pad ++ s.

End JsString.

Import JsString.

(** ** Values *)

(** The values the client inspects with [typeof], [instanceof],
    [!== undefined] or by truthiness.  The program never computes with a
    Number, it only tests and prints it, so a Number is kept as its
    canonical rendering ([Number::toString]: "0", "-1.5", "NaN", ...).
    Likewise a [Date] is kept as the text [toISOString] returns for it,
    [None] being an Invalid Date, for which [toISOString] throws. *)
Inductive JsValue :=
| JUndefined
| JNull
| JBool (b : bool)
| JNum (repr : jsstring)
| JStr (s : jsstring)
| JDate (iso : option jsstring).

(** What [JSON.parse] returns and what [JSON.stringify] writes.  The
    members of an object have distinct names. *)
Inductive Json :=
| JsonNull
| JsonBool (b : bool)
| JsonNum (repr : jsstring)
| JsonStr (s : jsstring)
| JsonArr (items : list Json)
| JsonObj (members : list (jsstring * Json)).

#[global] Instance JsValue_eq_dec : EqDecision JsValue.
Proof. solve_decision. Defined.

Definition number_falsy (repr : jsstring) : bool :=
  bool_decide (repr = js "0") || bool_decide (repr = js "NaN").

Definition number_finite (repr : jsstring) : bool :=
  negb (bool_decide (repr = js "NaN")
        || bool_decide (repr = js "Infinity")
        || bool_decide (repr = js "-Infinity")).

(** [Boolean(v)], and the test of [if (v)], [v && ...], [!v]. *)
Definition ToBoolean (v : JsValue) : bool :=
  match v with
  | JUndefined | JNull => false
  | JBool b => b
  | JNum repr => negb (number_falsy repr)
  | JStr s => truthy s
  | JDate _ => true
  end.

Definition Json_truthy (v : Json) : bool :=
  match v with
  | JsonNull => false
  | JsonBool b => b
  | JsonNum repr => negb (number_falsy repr)
  | JsonStr s => truthy s
  | JsonArr _ | JsonObj _ => true
  end.

Fixpoint member (name : jsstring) (members : list (jsstring * Json)) : option Json :=
  match members with
  | [] => None
  | (k, v) :: rest => if bool_decide (k = name) then Some v else member name rest
  end.

(** [v?.name] for a name that no prototype defines: [None] is
    [undefined]. *)
Definition optional_member (v : Json) (name : jsstring) : option Json :=
  match v with
  | JsonObj members => member name members
  | _ => None
  end.

(** [a || b], the left operand being possibly [undefined]. *)
Definition or_else (a : option Json) (b : Json) : Json :=
  match a with
  | Some v => if Json_truthy v then v else b
  | None => b
  end.

(** [ToString] of a parsed value; [None] is the TypeError raised when the
    value cannot be converted to a primitive, which for parsed data
    happens exactly when an object has a member named [toString] of its
    own (it shadows [Object.prototype.toString] and is not callable).
    An array is joined with commas, [null] elements printing as the
    empty string. *)
Fixpoint ToString (v : Json) : option jsstring :=
  match v with
  | JsonNull => Some (js "null")
  | JsonBool b => Some (js (if b then "true" else "false"))
  | JsonNum repr => Some repr
  | JsonStr s => Some s
  | JsonArr items =>
      (fix join (first : bool) (l : list Json) : option jsstring :=
         match l with
         | [] => Some []
         | x :: l' =>
             sx ← match x with JsonNull => Some [] | _ => ToString x end;
             rest ← join false l';
             Some ((if first then [] else js ",") ++ sx ++ rest)
         end) true items
  | JsonObj members =>
      match member (js "toString") members with
      | Some _ => None
      | None => Some (js "[object Object]")
      end
  end.

(** The value [JSON.stringify] writes for a property; [None]: the
    property is left out. *)
Definition toJSON (v : JsValue) : option Json :=
  match v with
  | JUndefined => None
  | JNull => Some JsonNull
  | JBool b => Some (JsonBool b)
  | JNum repr => Some (if number_finite repr then JsonNum repr else JsonNull)
  | JStr s => Some (JsonStr s)
  | JDate (Some iso) => Some (JsonStr iso)
  | JDate None => Some JsonNull
  end.

(** [JSON.stringify(o)] for an object [o] of such values: the document,
    as the finite map of its members. *)
Definition JSON_stringify (o : gmap string JsValue) : gmap string Json :=
  omap toJSON o.

(** [o.name]: [undefined] when the object has no such property. *)
Definition get (o : gmap string JsValue) (name : string) : JsValue :=
  default JUndefined (o !! name).

(** ** Entities, requests and responses *)

(** The typedef [TodoItem] of [todoApi.js]; optional properties are
    options, timestamps are kept as the ISO text the server sends. *)
Module TodoItem.
Record t := {
  _id : jsstring;
  title : jsstring;
  description : option jsstring;
  dueDate : option jsstring;
  isCompleted : bool;
  createdAt : option jsstring;
  updatedAt : option jsstring
}.
End TodoItem.

Inductive Method := GET | POST | PATCH | DELETE.

(** The arguments of one call of [fetch]: [fetch(url)] is a [GET] with no
    header and no body; [body] is the document [JSON.stringify] wrote. *)
Record Request := {
  method : Method;
  url : jsstring;
  headers : list (jsstring * jsstring);
  body : option (gmap string Json)
}.

(** A [Response]: its status and what reading its body gives, [None]
    when the body cannot be read. *)
Record Response := {
  status : N;
  text : option jsstring
}.

(** [response.ok] *)
Definition ok (response : Response) : bool :=
  (200 <=? status response) && (status response <=? 299).

(** [fetch] resolves with a response, whatever its status, or rejects
    with a TypeError whose message is the engine's. *)
Inductive FetchResult :=
| Rejected (message : jsstring)
| Resolved (response : Response).

Inductive ErrorClass := Error | TypeError | RangeError | SyntaxError.

Record JsError := {
  class : ErrorClass;
  message : jsstring
}.

(** Errors the engine itself raises; their wording differs between
    engines and is left to the host. *)
Inductive Fault :=
| InvalidTimeValue      (* RangeError of toISOString on an Invalid Date *)
| NotJson               (* SyntaxError of response.json() *)
| BodyUnreadable        (* TypeError of response.json() when reading fails *)
| NotAFunction          (* TypeError of calling a method the value lacks *)
| NotPrimitive.         (* TypeError of ToString, see [ToString] *)

Definition Fault_class (f : Fault) : ErrorClass :=
  match f with
  | InvalidTimeValue => RangeError
  | NotJson => SyntaxError
  | BodyUnreadable | NotAFunction | NotPrimitive => TypeError
  end.

(** ** The host *)

(** What the browser and the build supply.  [parse_TodoItem] and
    [parse_TodoItems] are [JSON.parse] read at the typedef, for the
    bodies of successful responses; [None] is the SyntaxError. *)
Class Host := {
  VITE_API_BASE_URL : option jsstring;
  fetch : Request → FetchResult;
  JSON_parse : jsstring → option Json;
  parse_TodoItem : jsstring → option TodoItem.t;
  parse_TodoItems : jsstring → option (list TodoItem.t);
  Date_parse : jsstring → option jsstring;
  confirm : jsstring → bool;
  fault_message : Fault → jsstring
}.

(** The local-time fields of a [Date], as its getters return them:
    [getMonth] counts from 0. *)
Record LocalFields := {
  getFullYear : Z;
  getMonth : N;
  getDate : N;
  getHours : N;
  getMinutes : N
}.

(** The time zone of the browser: the local fields of the valid date
    whose [toISOString] is the argument. *)
Class Zone := {
  local : jsstring → LocalFields
}.

(** ** The view's state *)

Module EditingData.
Record t := {
  title : jsstring;
  description : jsstring;
  dueDate : jsstring;
  isCompleted : bool
}.
End EditingData.

(** The [useState] cells of [App], in the order of the source;
    [editingTodoId] is [None] for [null]. *)
Module AppState.
Record t := {
  todos : list TodoItem.t;
  titleInput : jsstring;
  descriptionInput : jsstring;
  dueDateInput : jsstring;
  editingTodoId : option jsstring;
  editingData : EditingData.t;
  isLoading : bool;
  errorMessage : jsstring;
  filter : jsstring
}.
End AppState.

(** ** Effects *)

Inductive Operation := OpFetchTodos | OpCreateTodo | OpUpdateTodo | OpDeleteTodo.

(** What an action did, in order: [Called op] records that a function of
    the client was entered, [Sent r] that [fetch] was called with [r]. *)
Inductive Event :=
| Called (op : Operation)
| Sent (r : Request).

Record World := {
  view : AppState.t;
  trace : list Event
}.

Inductive Completion (A : Type) :=
| Normal (a : A)
| Throw (e : JsError).
Arguments Normal {A} a.
Arguments Throw {A} e.

#[global] Instance Completion_ret : MRet Completion := λ A a, Normal a.

#[global] Instance Completion_bind : MBind Completion := λ A B f c,
  match c with
  | Normal a => f a
  | Throw e => Throw e
  end.

(** A function that reads and writes the world, run to completion: what
    it leaves of the world and how it completed.  Nothing is undone by a
    [throw].  A function that touches neither the view nor the network
    is a plain [Completion]. *)
Definition M (A : Type) : Type := World → Completion A * World.

#[global] Instance M_ret : MRet M := λ A a w, (Normal a, w).

#[global] Instance M_bind : MBind M := λ A B f m w,
  match m w with
  | (Normal a, w') => f a w'
  | (Throw e, w') => (Throw e, w')
  end.

(** A computation that leaves the world alone, as a step of one that
    does not. *)
Definition lift {A} (c : Completion A) : M A := λ w, (c, w).

Definition throw {A} (e : JsError) : M A := lift (Throw e).

(** [try { m } catch (error) { h error }] *)
Definition try_catch {A} (m : M A) (h : JsError → M A) : M A := λ w,
  match m w with
  | (Normal a, w') => (Normal a, w')
  | (Throw e, w') => h e w'
  end.

(** [try { m } finally { f }] *)
Definition try_finally {A} (m : M A) (f : M unit) : M A := λ w,
  match m w with
  | (c, w') =>
      match f w' with
      | (Normal _, w'') => (c, w'')
      | (Throw e, w'') => (Throw e, w'')
      end
  end.

Definition emit (ev : Event) : M unit := λ w,
  (Normal tt, {| view := view w; trace := trace w ++ [ev] |}).

Definition render : M AppState.t := λ w, (Normal (view w), w).

Definition set_view (f : AppState.t → AppState.t) : M unit := λ w,
  (Normal tt, {| view := f (view w); trace := trace w |}).

Definition raise {A} `{Host} (f : Fault) : Completion A :=
  Throw {| class := Fault_class f; message := fault_message f |}.

(** [throw new Error(message)] *)
Definition throw_Error {A} (msg : jsstring) : Completion A :=
  Throw {| class := Error; message := msg |}.

(** [await fetch(...)] *)
Definition await_fetch `{Host} (r : Request) : M Response :=
  emit (Sent r);;
  match fetch r with
  | Rejected msg => throw {| class := TypeError; message := msg |}
  | Resolved response => mret response
  end.

(** [d.toISOString()] *)
Definition toISOString `{Host} (iso : option jsstring) : Completion jsstring :=
  match iso with
  | Some s => mret s
  | None => raise InvalidTimeValue
  end.

(** [await response.json()], read at the type the caller expects. *)
Definition response_json `{Host} {A} (parse : jsstring → option A)
    (response : Response) : Completion A :=
  match text response with
  | None => raise BodyUnreadable
  | Some t =>
      match parse t with
      | Some v => mret v
      | None => raise NotJson
      end
  end.

(** ** The REST client, [src/api/todoApi.js] *)

Module todoApi.
Section todoApi.
Context `{Host}.

Definition LF : jsstring := [0x0A].

Definition API_BASE_URL : jsstring :=
  match VITE_API_BASE_URL with
  | Some origin => if truthy origin then origin else js "http://localhost:5000"
  | None => js "http://localhost:5000"
  end ++ js "/todos".

(** The text appended for status 500. *)
Definition guidance : jsstring :=
  LF ++ LF ++ js "서버 측 문제일 수 있습니다. 가능한 원인:" ++ LF
  ++ js "1. 데이터베이스 연결 문제" ++ LF
  ++ js "2. 서버 환경변수 설정 문제" ++ LF
  ++ js "3. 서버 코드 오류" ++ LF ++ LF
  ++ js "Heroku 로그를 확인하거나 잠시 후 다시 시도해주세요.".

(** The message fixed by the status alone, used when the body cannot be
    read; [fallback] is the message computed so far. *)
Definition statusMessage (status : N) (fallback : jsstring) : jsstring :=
  if status =? 500 then js "서버 내부 오류가 발생했습니다. 잠시 후 다시 시도해주세요."
  else if status =? 404 then js "요청한 리소스를 찾을 수 없습니다."
  else if status =? 400 then js "잘못된 요청입니다. 입력값을 확인해주세요."
  else if status =? 401 then js "인증이 필요합니다."
  else if status =? 403 then js "접근 권한이 없습니다."
  else fallback.

(** [handleResponseError], up to the end of its [try] statement: the
    value of [errorMessage] there.  It is a string unless the body is
    JSON whose [message] or [error] member is a truthy value of another
    type. *)
Definition baseMessage (response : Response) : Json :=
  let errorMessage := js "서버 오류 (" ++ of_N (status response) ++ js ")" in
  match text response with
  | Some responseText =>
      match JSON_parse responseText with
      | Some errorData =>
          or_else (optional_member errorData (js "message"))
            (or_else (optional_member errorData (js "error"))
               (JsonStr errorMessage))
      | None =>
          if truthy responseText && (0 <? length responseText)%nat
          then JsonStr (substring0 200 responseText)
          else JsonStr errorMessage
      end
  | None => JsonStr (statusMessage (status response) errorMessage)
  end.

(** [errorMessage += s] *)
Definition append (errorMessage : Json) (s : jsstring) : Completion Json :=
  match ToString errorMessage with
  | Some t => mret (JsonStr (t ++ s))
  | None => raise NotPrimitive
  end.

Definition handleResponseError {A} (response : Response) : Completion A :=
  let errorMessage := baseMessage response in
  errorMessage ←
    (if status response =? 500 then append errorMessage guidance
     else mret errorMessage);
  match ToString errorMessage with
  | Some msg => throw_Error msg
  | None => raise NotPrimitive
  end.

Definition is_TypeError (error : JsError) : bool :=
  match class error with TypeError => true | _ => false end.

Definition fetchTodos (isCompleted : option bool) : M (list TodoItem.t) :=
  emit (Called OpFetchTodos);;
  try_catch
    (let url :=
       match isCompleted with
       | Some b =>
           API_BASE_URL ++ js "?isCompleted=" ++ js (if b then "true" else "false")
       | None => API_BASE_URL
       end in
     response ← await_fetch
       {| method := GET; url := url; headers := []; body := None |};
     lift (if negb (ok response) then handleResponseError response else mret tt);;
     lift (response_json parse_TodoItems response))
    (λ error,
       if is_TypeError error
          && (includes (js "fetch") (message error)
              || includes (js "Failed to fetch") (message error)
              || includes (js "network") (message error)
              || includes (js "NetworkError") (message error))
       then
         lift (throw_Error
           (js "백엔드 서버(" ++ API_BASE_URL ++ js ")에 연결할 수 없습니다."
            ++ LF ++ LF ++ js "확인사항:" ++ LF
            ++ js "1. 인터넷 연결 상태를 확인해주세요" ++ LF
            ++ js "2. Heroku 서버가 정상 작동 중인지 확인해주세요" ++ LF
            ++ js "3. 브라우저 개발자 도구의 네트워크 탭에서 에러를 확인해주세요"))
       else throw error).

(** The [catch] clause shared by [createTodo], [updateTodo] and
    [deleteTodo]. *)
Definition rethrow {A} (error : JsError) : M A :=
  if is_TypeError error && includes (js "fetch") (message error)
  then lift (throw_Error (js "백엔드 서버에 연결할 수 없습니다. 서버가 실행 중인지 확인해주세요."))
  else throw error.

Definition json_headers : list (jsstring * jsstring) :=
  [(js "Content-Type", js "application/json")].

(** A parameter with a default takes it when the argument is missing or
    [undefined]. *)
Definition or_default (arg dflt : JsValue) : JsValue :=
  match arg with JUndefined => dflt | _ => arg end.

(** The statements of [createTodo] that build [requestData], its
    parameters having taken their defaults.  A truthy [description] that
    is not a string has no [trim] to call. *)
Definition createTodo_requestData (title : jsstring)
    (description dueDate isCompleted : JsValue) : Completion (gmap string JsValue) :=
  let requestData : gmap string JsValue := {[ "title" := JStr (trim title) ]} in
  requestData ←
    match description with
    | JStr s =>
        mret (if truthy s && truthy (trim s)
              then <["description" := JStr (trim s)]> requestData
              else requestData)
    | v => if ToBoolean v then raise NotAFunction else mret requestData
    end;
  requestData ←
    (if ToBoolean dueDate then
       v ← match dueDate with
           | JDate iso => s ← toISOString iso; mret (JStr s)
           | v => mret v
           end;
       mret (<["dueDate" := v]> requestData)
     else mret requestData);
  let requestData :=
    match isCompleted with
    | JBool b => <["isCompleted" := JBool b]> requestData
    | _ => requestData
    end in
  mret requestData.

Definition createTodo (title : jsstring) (description dueDate isCompleted : JsValue)
  : M TodoItem.t :=
  let description := or_default description (JStr []) in
  let dueDate := or_default dueDate JNull in
  let isCompleted := or_default isCompleted (JBool false) in
  emit (Called OpCreateTodo);;
  try_catch
    (requestData ←
       lift (createTodo_requestData title description dueDate isCompleted);
     response ← await_fetch
       {| method := POST; url := API_BASE_URL; headers := json_headers;
          body := Some (JSON_stringify requestData) |};
     lift (if negb (ok response) then handleResponseError response else mret tt);;
     lift (response_json parse_TodoItem response))
    rethrow.

(** [!id || id === 'undefined' || id === 'null'] *)
Definition invalid_id (id : jsstring) : bool :=
  negb (truthy id) || bool_decide (id = js "undefined") || bool_decide (id = js "null").

Definition defined (v : JsValue) : bool := bool_decide (v ≠ JUndefined).

(** [typeof v === 'string' ? v.trim() : v] *)
Definition trimmed (v : JsValue) : JsValue :=
  match v with JStr s => JStr (trim s) | _ => v end.

(** The statements of [updateTodo] that build [requestData]. *)
Definition updateTodo_requestData (updateData : gmap string JsValue)
  : Completion (gmap string JsValue) :=
  let requestData : gmap string JsValue := ∅ in
  let requestData :=
    if defined (get updateData "title")
    then <["title" := trimmed (get updateData "title")]> requestData
    else requestData in
  let requestData :=
    if defined (get updateData "description")
    then <["description" := trimmed (get updateData "description")]> requestData
    else requestData in
  requestData ←
    (if defined (get updateData "dueDate") then
       v ← match get updateData "dueDate" with
           | JDate iso => s ← toISOString iso; mret (JStr s)
           | v => mret v
           end;
       mret (<["dueDate" := v]> requestData)
     else mret requestData);
  let requestData :=
    if defined (get updateData "isCompleted")
    then <["isCompleted" := JBool (ToBoolean (get updateData "isCompleted"))]> requestData
    else requestData in
  mret requestData.

(** The check of the identifier that opens [updateTodo] and
    [deleteTodo]. *)
Definition check_id (id : jsstring) : Completion unit :=
  if invalid_id id then throw_Error (js "유효하지 않은 할일 ID입니다")
  else mret tt.

Definition updateTodo (id : jsstring) (updateData : gmap string JsValue)
  : M TodoItem.t :=
  emit (Called OpUpdateTodo);;
  try_catch
    (lift (check_id id);;
     requestData ← lift (updateTodo_requestData updateData);
     response ← await_fetch
       {| method := PATCH; url := API_BASE_URL ++ js "/" ++ id;
          headers := json_headers; body := Some (JSON_stringify requestData) |};
     lift (if negb (ok response) then handleResponseError response else mret tt);;
     lift (response_json parse_TodoItem response))
    rethrow.

Definition deleteTodo (id : jsstring) : M unit :=
  emit (Called OpDeleteTodo);;
  try_catch
    (lift (check_id id);;
     response ← await_fetch
       {| method := DELETE; url := API_BASE_URL ++ js "/" ++ id;
          headers := []; body := None |};
     lift (if negb (ok response) && negb (status response =? 204)
           then handleResponseError response
           else mret tt))
    rethrow.

End todoApi.
End todoApi.

(** ** The view, [src/App.jsx] *)

Module App.
Section App.
Context `{Host}.

(** The setters of the [useState] cells. *)
Definition setTodos (v : list TodoItem.t) : M unit :=
  set_view (λ s,
    {| AppState.todos := v;
       AppState.titleInput := AppState.titleInput s;
       AppState.descriptionInput := AppState.descriptionInput s;
       AppState.dueDateInput := AppState.dueDateInput s;
       AppState.editingTodoId := AppState.editingTodoId s;
       AppState.editingData := AppState.editingData s;
       AppState.isLoading := AppState.isLoading s;
       AppState.errorMessage := AppState.errorMessage s;
       AppState.filter := AppState.filter s |}).

Definition setTitleInput (v : jsstring) : M unit :=
  set_view (λ s,
    {| AppState.todos := AppState.todos s;
       AppState.titleInput := v;
       AppState.descriptionInput := AppState.descriptionInput s;
       AppState.dueDateInput := AppState.dueDateInput s;
       AppState.editingTodoId := AppState.editingTodoId s;
       AppState.editingData := AppState.editingData s;
       AppState.isLoading := AppState.isLoading s;
       AppState.errorMessage := AppState.errorMessage s;
       AppState.filter := AppState.filter s |}).

Definition setDescriptionInput (v : jsstring) : M unit :=
  set_view (λ s,
    {| AppState.todos := AppState.todos s;
       AppState.titleInput := AppState.titleInput s;
       AppState.descriptionInput := v;
       AppState.dueDateInput := AppState.dueDateInput s;
       AppState.editingTodoId := AppState.editingTodoId s;
       AppState.editingData := AppState.editingData s;
       AppState.isLoading := AppState.isLoading s;
       AppState.errorMessage := AppState.errorMessage s;
       AppState.filter := AppState.filter s |}).

Definition setDueDateInput (v : jsstring) : M unit :=
  set_view (λ s,
    {| AppState.todos := AppState.todos s;
       AppState.titleInput := AppState.titleInput s;
       AppState.descriptionInput := AppState.descriptionInput s;
       AppState.dueDateInput := v;
       AppState.editingTodoId := AppState.editingTodoId s;
       AppState.editingData := AppState.editingData s;
       AppState.isLoading := AppState.isLoading s;
       AppState.errorMessage := AppState.errorMessage s;
       AppState.filter := AppState.filter s |}).

Definition setEditingTodoId (v : option jsstring) : M unit :=
  set_view (λ s,
    {| AppState.todos := AppState.todos s;
       AppState.titleInput := AppState.titleInput s;
       AppState.descriptionInput := AppState.descriptionInput s;
       AppState.dueDateInput := AppState.dueDateInput s;
       AppState.editingTodoId := v;
       AppState.editingData := AppState.editingData s;
       AppState.isLoading := AppState.isLoading s;
       AppState.errorMessage := AppState.errorMessage s;
       AppState.filter := AppState.filter s |}).

Definition setEditingData (v : EditingData.t) : M unit :=
  set_view (λ s,
    {| AppState.todos := AppState.todos s;
       AppState.titleInput := AppState.titleInput s;
       AppState.descriptionInput := AppState.descriptionInput s;
       AppState.dueDateInput := AppState.dueDateInput s;
       AppState.editingTodoId := AppState.editingTodoId s;
       AppState.editingData := v;
       AppState.isLoading := AppState.isLoading s;
       AppState.errorMessage := AppState.errorMessage s;
       AppState.filter := AppState.filter s |}).

Definition setIsLoading (v : bool) : M unit :=
  set_view (λ s,
    {| AppState.todos := AppState.todos s;
       AppState.titleInput := AppState.titleInput s;
       AppState.descriptionInput := AppState.descriptionInput s;
       AppState.dueDateInput := AppState.dueDateInput s;
       AppState.editingTodoId := AppState.editingTodoId s;
       AppState.editingData := AppState.editingData s;
       AppState.isLoading := v;
       AppState.errorMessage := AppState.errorMessage s;
       AppState.filter := AppState.filter s |}).

Definition setErrorMessage (v : jsstring) : M unit :=
  set_view (λ s,
    {| AppState.todos := AppState.todos s;
       AppState.titleInput := AppState.titleInput s;
       AppState.descriptionInput := AppState.descriptionInput s;
       AppState.dueDateInput := AppState.dueDateInput s;
       AppState.editingTodoId := AppState.editingTodoId s;
       AppState.editingData := AppState.editingData s;
       AppState.isLoading := AppState.isLoading s;
       AppState.errorMessage := v;
       AppState.filter := AppState.filter s |}).

Definition setFilter (v : jsstring) : M unit :=
  set_view (λ s,
    {| AppState.todos := AppState.todos s;
       AppState.titleInput := AppState.titleInput s;
       AppState.descriptionInput := AppState.descriptionInput s;
       AppState.dueDateInput := AppState.dueDateInput s;
       AppState.editingTodoId := AppState.editingTodoId s;
       AppState.editingData := AppState.editingData s;
       AppState.isLoading := AppState.isLoading s;
       AppState.errorMessage := AppState.errorMessage s;
       AppState.filter := v |}).

(** The initial values of the cells. *)
Definition blankEditingData : EditingData.t :=
  {| EditingData.title := []; EditingData.description := [];
     EditingData.dueDate := []; EditingData.isCompleted := false |}.

Definition initial : AppState.t :=
  {| AppState.todos := [];
     AppState.titleInput := [];
     AppState.descriptionInput := [];
     AppState.dueDateInput := [];
     AppState.editingTodoId := None;
     AppState.editingData := blankEditingData;
     AppState.isLoading := false;
     AppState.errorMessage := [];
     AppState.filter := js "all" |}.

(** [try { body } catch (error) { handler } finally { cleanup }] *)
Definition try_catch_finally {A} (body : M A) (handler : JsError → M A)
    (cleanup : M unit) : M A :=
  try_finally (try_catch body handler) cleanup.

(** The [catch] clause of every handler.  Whatever this program throws is
    an instance of [Error], so the message shown is the error's own and
    the handler's fallback text is never used. *)
Definition report (error : JsError) : M unit :=
  setErrorMessage (message error).

(** Each handler reads the cells through the closure of the render that
    created it: [s] below. *)
Definition loadTodos : M unit :=
  s ← render;
  setIsLoading true;;
  setErrorMessage [];;
  try_catch_finally
    (todosData ←
       (if bool_decide (AppState.filter s = js "completed")
        then todoApi.fetchTodos (Some true)
        else if bool_decide (AppState.filter s = js "pending")
        then todoApi.fetchTodos (Some false)
        else todoApi.fetchTodos None);
     setTodos todosData)
    report
    (setIsLoading false).

Definition handleAddTodo : M unit :=
  s ← render;
  if negb (truthy (trim (AppState.titleInput s))) then
    setErrorMessage (js "할일 제목을 입력해주세요.")
  else
    setIsLoading true;;
    setErrorMessage [];;
    try_catch_finally
      (let dueDate :=
         if truthy (AppState.dueDateInput s)
         then JDate (Date_parse (AppState.dueDateInput s))
         else JNull in
       newTodo ← todoApi.createTodo (AppState.titleInput s)
                   (JStr (AppState.descriptionInput s)) dueDate (JBool false);
       setTodos (newTodo :: AppState.todos s);;
       setTitleInput [];;
       setDescriptionInput [];;
       setDueDateInput [])
      report
      (setIsLoading false).

Context `{Zone}.

(** The text [handleStartEdit] puts in the [datetime-local] field for a
    task's [dueDate].  Every getter of an Invalid Date returns [NaN],
    which prints as "NaN" and is not padded, being three code units
    long. *)
Definition dueDateStr (dueDate : option jsstring) : jsstring :=
  match dueDate with
  | Some d =>
      if truthy d then
        match Date_parse d with
        | Some iso =>
            let date := local iso in
            let year := of_Z (getFullYear date) in
            let month := padStart 2 (js "0") (of_N (getMonth date + 1)) in
            let day := padStart 2 (js "0") (of_N (getDate date)) in
            let hours := padStart 2 (js "0") (of_N (getHours date)) in
            let minutes := padStart 2 (js "0") (of_N (getMinutes date)) in
            year ++ js "-" ++ month ++ js "-" ++ day ++ js "T"
              ++ hours ++ js ":" ++ minutes
        | None =>
            let nan := padStart 2 (js "0") (js "NaN") in
            js "NaN" ++ js "-" ++ nan ++ js "-" ++ nan ++ js "T"
              ++ nan ++ js ":" ++ nan
        end
      else []
  | None => []
  end.

Definition handleStartEdit (todo : TodoItem.t) : M unit :=
  setEditingTodoId (Some (TodoItem._id todo));;
  setEditingData
    {| EditingData.title := TodoItem.title todo;
       EditingData.description := default [] (TodoItem.description todo);
       EditingData.dueDate := dueDateStr (TodoItem.dueDate todo);
       EditingData.isCompleted := TodoItem.isCompleted todo || false |}.

Definition handleCancelEdit : M unit :=
  setEditingTodoId None;;
  setEditingData blankEditingData.

(** The statements of [handleSaveEdit] that build [updateData]: the
    object literal, then [dueDate] when the draft has one. *)
Definition handleSaveEdit_updateData (editingData : EditingData.t)
  : Completion (gmap string JsValue) :=
  let updateData : gmap string JsValue :=
    <["isCompleted" := JBool (EditingData.isCompleted editingData)]>
      (<["description" := JStr (EditingData.description editingData)]>
         {[ "title" := JStr (EditingData.title editingData) ]}) in
  if truthy (EditingData.dueDate editingData) then
    iso ← toISOString (Date_parse (EditingData.dueDate editingData));
    mret (<["dueDate" := JStr iso]> updateData)
  else mret updateData.

Definition handleSaveEdit (todoId : jsstring) : M unit :=
  s ← render;
  let editingData := AppState.editingData s in
  if negb (truthy (trim (EditingData.title editingData))) then
    setErrorMessage (js "할일 제목을 입력해주세요.")
  else
    setIsLoading true;;
    setErrorMessage [];;
    try_catch_finally
      (updateData ← lift (handleSaveEdit_updateData editingData);
       updatedTodo ← todoApi.updateTodo todoId updateData;
       setTodos
         ((λ todo, if bool_decide (TodoItem._id todo = todoId)
                   then updatedTodo else todo) <$> AppState.todos s);;
       setEditingTodoId None;;
       setEditingData blankEditingData)
      report
      (setIsLoading false).

Definition handleToggleComplete (todo : TodoItem.t) : M unit :=
  s ← render;
  setIsLoading true;;
  setErrorMessage [];;
  try_catch_finally
    (updatedTodo ← todoApi.updateTodo (TodoItem._id todo)
                     {[ "isCompleted" := JBool (negb (TodoItem.isCompleted todo)) ]};
     setTodos
       ((λ t, if bool_decide (TodoItem._id t = TodoItem._id todo)
              then updatedTodo else t) <$> AppState.todos s))
    report
    (setIsLoading false).

Definition handleDeleteTodo (todoId : jsstring) : M unit :=
  s ← render;
  if negb (confirm (js "정말로 이 할일을 삭제하시겠습니까?")) then mret tt
  else
    setIsLoading true;;
    setErrorMessage [];;
    try_catch_finally
      (todoApi.deleteTodo todoId;;
       setTodos
         (List.filter (λ todo, negb (bool_decide (TodoItem._id todo = todoId)))
            (AppState.todos s)))
      report
      (setIsLoading false).

(** What the JSX of [App] computes from the cells. *)

(** [editingTodoId === todo._id]: the row of [todo] shows the edit
    form. *)
Definition row_in_edit_mode (s : AppState.t) (todo : TodoItem.t) : bool :=
  bool_decide (AppState.editingTodoId s = Some (TodoItem._id todo)).

(** The three branches of the list: the loading message, the empty
    message, the rows. *)
Inductive ListBody := LoadingMessage | EmptyMessage | Rows (rows : list TodoItem.t).

Definition list_body (s : AppState.t) : ListBody :=
  if AppState.isLoading s && bool_decide (length (AppState.todos s) = 0%nat)
  then LoadingMessage
  else if bool_decide (length (AppState.todos s) = 0%nat) then EmptyMessage
  else Rows (AppState.todos s).

End App.
End App.

(** An action, run from the view state [s] with nothing sent yet. *)
Definition run {A} (m : M A) (s : AppState.t) : Completion A * World :=
  m {| view := s; trace := [] |}.

Definition requests (w : World) : list Request :=
  omap (λ ev, match ev with Sent r => Some r | Called _ => None end) (trace w).

Definition calls (w : World) : list Operation :=
  omap (λ ev, match ev with Called op => Some op | Sent _ => None end) (trace w).

(** ** Auxiliary definitions of the statements *)

(** The world a function leaves when it has appended [evs] to the
    trace and left the view alone. *)
Definition sent (w : World) (evs : list Event) : World :=
  {| view := view w; trace := trace w ++ evs |}.

(** The properties a PATCH body may carry. *)
Definition mutable_fields : gset string :=
  {[ "title"; "description"; "dueDate"; "isCompleted" ]}.

(** [if (b) o[k] = v], as every optional property is stored. *)
Definition put (k : string) (v : JsValue) (b : bool) (o : gmap string JsValue)
  : gmap string JsValue :=
  if b then <[k:=v]> o else o.

(** [v instanceof Date ? v.toISOString() : v], for a date that is
    valid. *)
Definition iso_or_self (v : JsValue) : JsValue :=
  match v with JDate (Some iso) => JStr iso | _ => v end.

(** ** Sample data *)

(** The body [{"message":"boom"}]. *)
Definition boom_body : jsstring :=
  js "{" ++ [0x22] ++ js "message" ++ [0x22] ++ js ":"
  ++ [0x22] ++ js "boom" ++ [0x22] ++ js "}".

Definition buy_milk : TodoItem.t :=
  {| TodoItem._id := js "42"; TodoItem.title := js "Buy milk";
     TodoItem.description := None; TodoItem.dueDate := None;
     TodoItem.isCompleted := false;
     TodoItem.createdAt := None; TodoItem.updatedAt := None |}.

(** A host whose server answers every request with [response].  Its
    [JSON.parse] knows [boom_body] and rejects every other text; that is
    all the examples need of it. *)
Definition sample_host (response : Response) : Host :=
  {| VITE_API_BASE_URL := None;
     fetch := λ _, Resolved response;
     JSON_parse := λ t,
       if bool_decide (t = boom_body)
       then Some (JsonObj [(js "message", JsonStr (js "boom"))])
       else None;
     parse_TodoItem := λ _, Some buy_milk;
     parse_TodoItems := λ _, Some [buy_milk];
     Date_parse := λ t, if bool_decide (t = js "2026-01-01T09:00")
                        then Some (js "2026-01-01T09:00:00.000Z") else None;
     confirm := λ _, true;
     fault_message := λ _, js "engine error" |}.

Definition respond (status : N) (text : option jsstring) : Response :=
  {| status := status; text := text |}.

(** A view with one task listed, as the examples need it. *)
Definition sample_view (filter titleInput : jsstring) (editingData : EditingData.t)
  : AppState.t :=
  {| AppState.todos := [buy_milk];
     AppState.titleInput := titleInput;
     AppState.descriptionInput := [];
     AppState.dueDateInput := [];
     AppState.editingTodoId := Some (js "42");
     AppState.editingData := editingData;
     AppState.isLoading := false;
     AppState.errorMessage := [];
     AppState.filter := filter |}.

Definition draft (title dueDate : jsstring) : EditingData.t :=
  {| EditingData.title := title; EditingData.description := [];
     EditingData.dueDate := dueDate; EditingData.isCompleted := true |}.

(** [{ title: " x ", isCompleted: 1 }] *)
Definition sample_update : gmap string JsValue :=
  <["isCompleted" := JNum (js "1")]> {[ "title" := JStr (js " x ") ]}.

(** The server of the examples: it lists and returns [buy_milk]. *)
Definition serving : Host := sample_host (respond 200 (Some (js "[]"))).

(** A server that fails every request with a plain-text 500. *)
Definition failing : Host := sample_host (respond 500 (Some (js "oops"))).

(** The PATCH for [sample_update]: the title trimmed, the number 1
    turned into [true]. *)
Definition sample_patch : Request :=
  {| method := PATCH;
     url := js "http://localhost:5000/todos/42";
     headers := [(js "Content-Type", js "application/json")];
     body := Some (<["isCompleted" := JsonBool true]>
                     {[ "title" := JsonStr (js "x") ]}) |}.

(** A view in the middle of an edit: a title typed into the form, and a
    draft for the listed task with no due date. *)
Definition busy_view : AppState.t :=
  sample_view (js "all") (js "Walk dog") (draft (js "Buy oat milk") []).

(** The PATCH that saving the draft of [busy_view] sends. *)
Definition busy_patch : Request :=
  {| method := PATCH;
     url := js "http://localhost:5000/todos/42";
     headers := [(js "Content-Type", js "application/json")];
     body := Some (<["isCompleted" := JsonBool true]>
                     (<["description" := JsonStr []]>
                        {[ "title" := JsonStr (js "Buy oat milk") ]})) |}.

(** ** More auxiliary definitions of the statements *)


(** The third argument [handleAddTodo] gives [createTodo] for the text
    of the date field. *)
Definition dueDate_of_input `{Host} (dueDateInput : jsstring) : JsValue :=
  if truthy dueDateInput then JDate (Date_parse dueDateInput) else JNull.

(** [todos.map(todo => todo._id === id ? updated : todo)] *)
Definition replace_todo (id : jsstring) (updated : TodoItem.t)
    (todos : list TodoItem.t) : list TodoItem.t :=
  (λ todo, if bool_decide (TodoItem._id todo = id) then updated else todo) <$> todos.

(** ** More sample data *)

(** A browser in UTC+9 looking at 2026-01-01T00:00:00.000Z. *)
Definition seoul : Zone :=
  {| local := λ _, {| getFullYear := 2026; getMonth := 0; getDate := 1;
                      getHours := 9; getMinutes := 0 |} |}.

(** The body [{"error":"nope"}]. *)
Definition nope_body : jsstring :=
  js "{" ++ [0x22] ++ js "error" ++ [0x22] ++ js ":"
  ++ [0x22] ++ js "nope" ++ [0x22] ++ js "}".

(** A browser like [sample_host], with its network, its user and its
    clock given: [JSON.parse] knows [boom_body], [nope_body] and [{}];
    [new Date] knows one local text and one ISO text. *)
Definition browser (network : Request → FetchResult) (answer : bool) : Host :=
  {| VITE_API_BASE_URL := Some (js "https://todo.example");
     fetch := network;
     JSON_parse := λ t,
       if bool_decide (t = boom_body)
       then Some (JsonObj [(js "message", JsonStr (js "boom"))])
       else if bool_decide (t = nope_body)
       then Some (JsonObj [(js "message", JsonStr []);
                           (js "error", JsonStr (js "nope"))])
       else if bool_decide (t = js "{}") then Some (JsonObj [])
       else None;
     parse_TodoItem := λ _, Some buy_milk;
     parse_TodoItems := λ _, Some [buy_milk];
     Date_parse := λ t,
       if bool_decide (t = js "2026-01-01T09:00")
          || bool_decide (t = js "2026-01-01T00:00:00.000Z")
       then Some (js "2026-01-01T00:00:00.000Z") else None;
     confirm := λ _, answer;
     fault_message := λ f,
       match f with
       | InvalidTimeValue => js "Invalid time value"
       | _ => js "engine error"
       end |}.

(** The server answers 200 with a body; the user confirms. *)
Definition online : Host :=
  browser (λ _, Resolved (respond 200 (Some (js "[]")))) true.

(** The server answers 404 with [boom_body]. *)
Definition missing : Host :=
  browser (λ _, Resolved (respond 404 (Some boom_body))) true.

(** No network, in the words of an engine that does not say "fetch". *)
Definition offline : Host := browser (λ _, Rejected (js "Load failed")) true.

(** No network, in the words of one that does. *)
Definition unreachable : Host := browser (λ _, Rejected (js "Failed to fetch")) true.

(** The user answers no. *)
Definition declining : Host :=
  browser (λ _, Resolved (respond 204 None)) false.

(** A task due on new year's day, and one with an identifier the client
    refuses. *)
Definition due_task : TodoItem.t :=
  {| TodoItem._id := js "7"; TodoItem.title := js " Pay rent ";
     TodoItem.description := Some (js "before noon");
     TodoItem.dueDate := Some (js "2026-01-01T00:00:00.000Z");
     TodoItem.isCompleted := false;
     TodoItem.createdAt := None; TodoItem.updatedAt := None |}.

Definition orphan_task : TodoItem.t :=
  {| TodoItem._id := js "undefined"; TodoItem.title := js "Lost";
     TodoItem.description := None; TodoItem.dueDate := None;
     TodoItem.isCompleted := true;
     TodoItem.createdAt := None; TodoItem.updatedAt := None |}.

(** A view left with the loading flag set and an old error in the
    banner; the form and the draft are filled in. *)
Definition waiting_view : AppState.t :=
  {| AppState.todos := [buy_milk];
     AppState.titleInput := js "Walk dog";
     AppState.descriptionInput := [];
     AppState.dueDateInput := [];
     AppState.editingTodoId := Some (js "42");
     AppState.editingData := draft (js "Buy oat milk") [];
     AppState.isLoading := true;
     AppState.errorMessage := js "stale";
     AppState.filter := js "all" |}.

(** Three rows with three identifiers, the first one being edited. *)
Definition crowded_view : AppState.t :=
  {| AppState.todos := [buy_milk; due_task; orphan_task];
     AppState.titleInput := [];
     AppState.descriptionInput := [];
     AppState.dueDateInput := [];
     AppState.editingTodoId := Some (js "42");
     AppState.editingData := draft (js "Buy milk") [];
     AppState.isLoading := false;
     AppState.errorMessage := [];
     AppState.filter := js "all" |}.

(** A draft whose date text is not a date. *)
Definition bad_draft_view : AppState.t :=
  sample_view (js "all") [] (draft (js "Buy milk") (js "soon")).

(** [{ title: " x ", description: 5, dueDate: null }] *)
Definition clearing_update : gmap string JsValue :=
  <["dueDate" := JNull]>
    (<["description" := JNum (js "5")]> {[ "title" := JStr (js " x ") ]}).

Definition clearing_patch : Request :=
  {| method := PATCH;
     url := js "https://todo.example/todos/42";
     headers := [(js "Content-Type", js "application/json")];
     body := Some (<["dueDate" := JsonNull]>
                     (<["description" := JsonNum (js "5")]>
                        {[ "title" := JsonStr (js "x") ]})) |}.

(** The POST and the PATCH of [busy_view] on [online]. *)
Definition busy_post : Request :=
  {| method := POST;
     url := js "https://todo.example/todos";
     headers := [(js "Content-Type", js "application/json")];
     body := Some (<["isCompleted" := JsonBool false]>
                     {[ "title" := JsonStr (js "Walk dog") ]}) |}.

Definition busy_save : Request :=
  {| method := PATCH;
     url := js "https://todo.example/todos/42";
     headers := [(js "Content-Type", js "application/json")];
     body := Some (<["isCompleted" := JsonBool true]>
                     (<["description" := JsonStr []]>
                        {[ "title" := JsonStr (js "Buy oat milk") ]})) |}.

(** * Properties *)

(** ** The string functions on literals *)

Example js_ascii : js "fetch" = [102; 101; 116; 99; 104].
Proof. reflexivity. Qed.

Example js_hangul : js "서버" = [0xC11C; 0xBC84].
Proof. reflexivity. Qed.

Example trim_both : trim (js "  Buy milk ") = js "Buy milk".
Proof. reflexivity. Qed.

Example includes_fetch : includes (js "fetch") (js "Failed to fetch") = true.
Proof. reflexivity. Qed.

Example of_N_404 : of_N 404 = js "404".
Proof. reflexivity. Qed.

Example ToString_array :
  ToString (JsonArr [JsonNum (js "1"); JsonNull; JsonArr [JsonStr (js "a"); JsonBool true]])
  = Some (js "1,,a,true").
Proof. reflexivity. Qed.

Example of_N_zero : of_N 0 = js "0".
Proof. reflexivity. Qed.

Lemma substring0_length n (s : jsstring) : (length (substring0 n s) ≤ n)%nat.
Proof. unfold substring0. rewrite length_take. lia. Qed.

(** From here on the string functions are used through their lemmas
    only. *)
#[local] Opaque js of_N trim includes substring0.

(** ** Tactics *)

Ltac unfold_monad :=
  cbv [mbind M_bind mret M_ret Completion_bind Completion_ret
       emit render set_view lift throw try_catch try_finally
       App.try_catch_finally App.report];
  simpl.

(** Case analysis on the innermost scrutinee left in the goal. *)
Ltac case_innermost :=
  match goal with
  | |- context [match ?x with _ => _ end] =>
      lazymatch x with
      | context [match _ with _ => _ end] => fail
      | _ => destruct x eqn:?; simpl
      end
  end.

Ltac case_match_all := repeat case_innermost.

Ltac unfold_setters :=
  cbv [App.setTodos App.setTitleInput App.setDescriptionInput
       App.setDueDateInput App.setEditingTodoId App.setEditingData
       App.setIsLoading App.setErrorMessage App.setFilter].

Section Client.
Context `{Host}.

(** *** What each function of the client sends *)

Lemma fetchTodos_world isCompleted w :
  (todoApi.fetchTodos isCompleted w).2
  = sent w [Called OpFetchTodos;
            Sent {| method := GET;
                    url := match isCompleted with
                           | Some b => todoApi.API_BASE_URL ++ js "?isCompleted="
                                         ++ js (if b then "true" else "false")
                           | None => todoApi.API_BASE_URL
                           end;
                    headers := []; body := None |}].
Proof.
  unfold todoApi.fetchTodos, await_fetch, sent. unfold_monad.
  rewrite <- app_assoc. simpl.
  case_match_all; reflexivity.
Qed.

Lemma createTodo_world title description dueDate isCompleted w :
  (todoApi.createTodo title description dueDate isCompleted w).2
  = sent w (Called OpCreateTodo ::
            match todoApi.createTodo_requestData title
                    (todoApi.or_default description (JStr []))
                    (todoApi.or_default dueDate JNull)
                    (todoApi.or_default isCompleted (JBool false)) with
            | Normal requestData =>
                [Sent {| method := POST; url := todoApi.API_BASE_URL;
                         headers := todoApi.json_headers;
                         body := Some (JSON_stringify requestData) |}]
            | Throw _ => []
            end).
Proof.
  unfold todoApi.createTodo, todoApi.rethrow, await_fetch, sent. unfold_monad.
  destruct (todoApi.createTodo_requestData _ _ _ _); simpl;
    [rewrite <- app_assoc; simpl|];
    case_match_all; reflexivity.
Qed.

Lemma updateTodo_world id updateData w :
  (todoApi.updateTodo id updateData w).2
  = sent w (Called OpUpdateTodo ::
            if todoApi.invalid_id id then []
            else match todoApi.updateTodo_requestData updateData with
                 | Normal requestData =>
                     [Sent {| method := PATCH;
                              url := todoApi.API_BASE_URL ++ js "/" ++ id;
                              headers := todoApi.json_headers;
                              body := Some (JSON_stringify requestData) |}]
                 | Throw _ => []
                 end).
Proof.
  unfold todoApi.updateTodo, todoApi.check_id, todoApi.rethrow, await_fetch, sent.
  unfold_monad.
  destruct (todoApi.invalid_id id); simpl.
  - case_match_all; reflexivity.
  - destruct (todoApi.updateTodo_requestData _); simpl;
      [rewrite <- app_assoc; simpl|];
      case_match_all; reflexivity.
Qed.

Lemma deleteTodo_world id w :
  (todoApi.deleteTodo id w).2
  = sent w (Called OpDeleteTodo ::
            if todoApi.invalid_id id then []
            else [Sent {| method := DELETE;
                          url := todoApi.API_BASE_URL ++ js "/" ++ id;
                          headers := []; body := None |}]).
Proof.
  unfold todoApi.deleteTodo, todoApi.check_id, todoApi.rethrow, await_fetch, sent.
  unfold_monad.
  destruct (todoApi.invalid_id id); simpl;
    [|rewrite <- app_assoc; simpl];
    case_match_all; reflexivity.
Qed.

End Client.
Section RequestData.
Context `{Host}.

Lemma toJSON_defined v : v ≠ JUndefined → is_Some (toJSON v).
Proof. destruct v as [| | | | |[]]; simpl; eauto; congruence. Qed.

Lemma trimmed_defined v : v ≠ JUndefined → todoApi.trimmed v ≠ JUndefined.
Proof. destruct v; simpl; congruence. Qed.

Lemma defined_true v : todoApi.defined v = true ↔ v ≠ JUndefined.
Proof. unfold todoApi.defined. apply bool_decide_eq_true. Qed.

Lemma defined_false v : todoApi.defined v = false ↔ v = JUndefined.
Proof.
  unfold todoApi.defined. rewrite bool_decide_eq_false.
  destruct (decide (v = JUndefined)); naive_solver.
Qed.

Lemma lookup_put k v b o name :
  put k v b o !! name = if b && bool_decide (k = name) then Some v else o !! name.
Proof.
  unfold put. destruct b; simpl; [|done].
  rewrite lookup_insert. by destruct (decide (k = name)); simplify_eq/=;
    [rewrite bool_decide_eq_true_2|rewrite bool_decide_eq_false_2].
Qed.

Lemma iso_or_self_defined v : v ≠ JUndefined → iso_or_self v ≠ JUndefined.
Proof. destruct v as [| | | | |[]]; simpl; congruence. Qed.

(** The object [updateTodo] builds, when it builds one. *)
Lemma updateTodo_requestData_inv updateData requestData :
  todoApi.updateTodo_requestData updateData = Normal requestData →
  requestData =
    put "isCompleted" (JBool (ToBoolean (get updateData "isCompleted")))
      (todoApi.defined (get updateData "isCompleted"))
      (put "dueDate" (iso_or_self (get updateData "dueDate"))
         (todoApi.defined (get updateData "dueDate"))
         (put "description" (todoApi.trimmed (get updateData "description"))
            (todoApi.defined (get updateData "description"))
            (put "title" (todoApi.trimmed (get updateData "title"))
               (todoApi.defined (get updateData "title")) ∅))).
Proof.
  unfold todoApi.updateTodo_requestData, put.
  cbv [mbind mret Completion_bind Completion_ret].
  destruct (todoApi.defined (get updateData "dueDate")).
  - destruct (get updateData "dueDate") as [| | | | |[iso|]];
      simpl; intros Hrd; try discriminate Hrd; by injection Hrd as <-.
  - intros Hrd. by injection Hrd as <-.
Qed.

(** What the document of a PATCH holds, property by property. *)
Lemma updateTodo_requestData_lookup updateData requestData name :
  todoApi.updateTodo_requestData updateData = Normal requestData →
  (is_Some (JSON_stringify requestData !! name)
   ↔ name ∈ mutable_fields ∧ get updateData name ≠ JUndefined)
  ∧ (name = "isCompleted" → get updateData name ≠ JUndefined →
     JSON_stringify requestData !! name
     = Some (JsonBool (ToBoolean (get updateData name)))).
Proof.
  intros ->%updateTodo_requestData_inv.
  unfold JSON_stringify, mutable_fields.
  rewrite lookup_omap, !lookup_put, lookup_empty.
  destruct (decide (name = "isCompleted")) as [->|];
    [|destruct (decide (name = "dueDate")) as [->|];
      [|destruct (decide (name = "description")) as [->|];
        [|destruct (decide (name = "title")) as [->|]]]];
    repeat first [rewrite bool_decide_eq_true_2 by done
                 |rewrite bool_decide_eq_false_2 by done];
    rewrite ?andb_true_r, ?andb_false_r; simpl.
  5: { split; [|done]. split; [by intros []|]. intros [Hin _]. revert Hin.
       rewrite !elem_of_union, !elem_of_singleton. intuition. }
  all: match goal with
       | |- context [todoApi.defined ?v] =>
           destruct (todoApi.defined v) eqn:Hdef;
           [apply defined_true in Hdef|apply defined_false in Hdef]
       end; simpl.
  all: split; [split|]; try done.
  all: try (intros _; split; [|done];
            rewrite !elem_of_union, !elem_of_singleton; intuition).
  all: try (by intros []).
  all: try (intros [_ ?]; done).
  all: try (intros _; by apply toJSON_defined;
            try apply trimmed_defined; try apply iso_or_self_defined).
Qed.
End RequestData.

Section ResponseErrors.
Context `{Host}.

(** *** [handleResponseError] *)

(** The error [handleResponseError] throws, in terms of [baseMessage]. *)
Lemma handleResponseError_throws {A} response base :
  ToString (todoApi.baseMessage response) = Some base →
  @todoApi.handleResponseError _ A response
  = Throw {| class := Error;
             message := if status response =? 500
                        then base ++ todoApi.guidance else base |}.
Proof.
  intros Hbase. unfold todoApi.handleResponseError, todoApi.append, throw_Error.
  cbv [mbind mret Completion_bind Completion_ret].
  destruct (status response =? 500); rewrite Hbase; simpl; reflexivity.
Qed.

Lemma baseMessage_unreadable response :
  text response = None →
  todoApi.baseMessage response
  = JsonStr (todoApi.statusMessage (status response)
               (js "서버 오류 (" ++ of_N (status response) ++ js ")")).
Proof. unfold todoApi.baseMessage. by intros ->. Qed.

Lemma baseMessage_not_json response t :
  text response = Some t → t ≠ [] → JSON_parse t = None →
  todoApi.baseMessage response = JsonStr (substring0 200 t).
Proof.
  unfold todoApi.baseMessage. intros -> Ht ->.
  destruct t; [done|]. reflexivity.
Qed.

End ResponseErrors.

Section ClientClaims.
Context `{Host}.

Lemma title_only_requests title s :
  requests (run (todoApi.createTodo title JUndefined JUndefined JUndefined) s).2
  = [ {| method := POST; url := todoApi.API_BASE_URL;
         headers := todoApi.json_headers;
         body := Some (<["isCompleted" := JsonBool false]>
                         {[ "title" := JsonStr (trim title) ]}) |} ].
Proof.
  unfold run. rewrite createTodo_world. simpl.
  unfold requests, JSON_stringify. simpl.
  by erewrite omap_insert_Some, omap_singleton_Some.
Qed.

(** C1 (as the code has it).  A call of [createTodo] with a title and
    nothing else sends one POST whose body has exactly two members: the
    trimmed [title] and [isCompleted], which takes its default [false]. *)
Theorem createTodo_title_only title s :
  ∃ doc,
    requests (run (todoApi.createTodo title JUndefined JUndefined JUndefined) s).2
    = [ {| method := POST; url := todoApi.API_BASE_URL;
           headers := todoApi.json_headers; body := Some doc |} ]
    ∧ dom doc = {[ "title"; "isCompleted" ]}
    ∧ doc !! "title" = Some (JsonStr (trim title))
    ∧ doc !! "isCompleted" = Some (JsonBool false).
Proof.
  eexists. split; [apply title_only_requests|].
  split; [|split].
  - rewrite dom_insert_L, dom_singleton_L. set_solver.
  - by rewrite lookup_insert_ne, lookup_singleton_eq.
  - by rewrite lookup_insert_eq.
Qed.

(** C2 (as the code has it).  The guidance text is appended for status
    500 and for no other status: with [base] the message chosen from the
    body or the status, the error thrown carries [base ++ guidance] when
    the status is 500 and [base] alone otherwise. *)
Theorem handleResponseError_guidance {A} response base :
  ToString (todoApi.baseMessage response) = Some base →
  (status response = 500 →
   @todoApi.handleResponseError _ A response
   = Throw {| class := Error; message := base ++ todoApi.guidance |})
  ∧ (status response ≠ 500 →
     @todoApi.handleResponseError _ A response
     = Throw {| class := Error; message := base |}).
Proof.
  intros Hbase. rewrite (handleResponseError_throws _ _ Hbase).
  split; intros Hs.
  - by rewrite Hs.
  - by apply N.eqb_neq in Hs as ->.
Qed.

(** C3 (as the code has it).  The fixed message for 404 is the one
    thrown when the body of the response cannot be read. *)
Theorem handleResponseError_404_unreadable {A} response :
  status response = 404 → text response = None →
  @todoApi.handleResponseError _ A response
  = Throw {| class := Error; message := js "요청한 리소스를 찾을 수 없습니다." |}.
Proof.
  intros Hs Ht.
  erewrite handleResponseError_throws;
    [|by rewrite baseMessage_unreadable].
  by rewrite Hs.
Qed.

(** C9 (as the code has it).  For a body that is readable, not empty and
    not JSON, the message is the first 200 code units of the body, and
    for status 500 the guidance text follows them. *)
Theorem handleResponseError_text_body {A} response t :
  text response = Some t → t ≠ [] → JSON_parse t = None →
  @todoApi.handleResponseError _ A response
  = Throw {| class := Error;
             message := if status response =? 500
                        then substring0 200 t ++ todoApi.guidance
                        else substring0 200 t |}
  ∧ (length (substring0 200 t) ≤ 200)%nat.
Proof.
  intros Ht Hne Hjson. split; [|apply substring0_length].
  apply handleResponseError_throws.
  by rewrite (baseMessage_not_json _ _ Ht Hne Hjson).
Qed.

Lemma invalid_id_listed id :
  id = [] ∨ id = js "undefined" ∨ id = js "null" → todoApi.invalid_id id = true.
Proof. intros [->|[->| ->]]; vm_compute; reflexivity. Qed.

(** C6.  [deleteTodo] and [updateTodo] called with the identifier "",
    "undefined" or "null" throw the validation error, and [fetch] is not
    called. *)
Theorem invalid_id_rejected id updateData s :
  id = [] ∨ id = js "undefined" ∨ id = js "null" →
  (run (todoApi.deleteTodo id) s).1
    = Throw {| class := Error; message := js "유효하지 않은 할일 ID입니다" |}
  ∧ requests (run (todoApi.deleteTodo id) s).2 = []
  ∧ (run (todoApi.updateTodo id updateData) s).1
    = Throw {| class := Error; message := js "유효하지 않은 할일 ID입니다" |}
  ∧ requests (run (todoApi.updateTodo id updateData) s).2 = [].
Proof.
  intros Hid%invalid_id_listed. unfold run.
  rewrite deleteTodo_world, updateTodo_world, Hid.
  unfold todoApi.deleteTodo, todoApi.updateTodo, todoApi.check_id, todoApi.rethrow.
  unfold_monad. rewrite Hid. simpl. done.
Qed.

(** C5.  The body of the PATCH that [updateTodo] sends has a member
    exactly for each of [title], [description], [dueDate], [isCompleted]
    that [updateData] defines, and [isCompleted], when it is there, is
    the boolean [Boolean(updateData.isCompleted)]. *)
Theorem updateTodo_body_fields id updateData s r :
  r ∈ requests (run (todoApi.updateTodo id updateData) s).2 →
  ∃ doc, body r = Some doc
    ∧ (∀ name, is_Some (doc !! name)
               ↔ name ∈ mutable_fields ∧ get updateData name ≠ JUndefined)
    ∧ (get updateData "isCompleted" ≠ JUndefined →
       doc !! "isCompleted"
       = Some (JsonBool (ToBoolean (get updateData "isCompleted")))).
Proof.
  unfold run. rewrite updateTodo_world. unfold requests. simpl.
  destruct (todoApi.invalid_id id); simpl; [by intros ?%elem_of_nil|].
  destruct (todoApi.updateTodo_requestData updateData) as [requestData|] eqn:Hrd;
    simpl; [|by intros ?%elem_of_nil].
  intros ->%list_elem_of_singleton. eexists. split; [reflexivity|]. split.
  - intros name. by apply updateTodo_requestData_lookup.
  - by apply updateTodo_requestData_lookup.
Qed.

(** [updateTodo] does send its request, unless the identifier is
    refused or [dueDate] is an Invalid Date. *)
Lemma updateTodo_sends id updateData s :
  todoApi.invalid_id id = false →
  (∀ iso, get updateData "dueDate" = JDate iso → is_Some iso) →
  ∃ doc,
    requests (run (todoApi.updateTodo id updateData) s).2
    = [ {| method := PATCH; url := todoApi.API_BASE_URL ++ js "/" ++ id;
           headers := todoApi.json_headers; body := Some doc |} ].
Proof.
  intros Hid Hdue. unfold run. rewrite updateTodo_world, Hid.
  unfold requests. simpl.
  destruct (todoApi.updateTodo_requestData updateData) eqn:Hrd; simpl; [eauto|].
  exfalso. revert Hrd. unfold todoApi.updateTodo_requestData.
  cbv [mbind mret Completion_bind Completion_ret].
  destruct (todoApi.defined _); [|done].
  destruct (get updateData "dueDate") as [| | | | |iso]; try done.
  by destruct (Hdue iso eq_refl) as [? ->].
Qed.

End ClientClaims.

(** What a handler finds once the client has returned. *)
Ltac client_world :=
  match goal with
  | |- context [todoApi.createTodo ?t ?d ?u ?c ?w] =>
      pose proof (createTodo_world t d u c w) as Hw;
      destruct (todoApi.createTodo t d u c w) as [[] w']; simpl in *; subst w'
  | |- context [todoApi.updateTodo ?i ?d ?w] =>
      pose proof (updateTodo_world i d w) as Hw;
      destruct (todoApi.updateTodo i d w) as [[] w']; simpl in *; subst w'
  | |- context [todoApi.deleteTodo ?i ?w] =>
      pose proof (deleteTodo_world i w) as Hw;
      destruct (todoApi.deleteTodo i w) as [[] w']; simpl in *; subst w'
  end.

Section View.
Context `{Host}.

(** *** The cleanup step *)

(** Whatever the body and the handler do, an action that ends with
    [finally { setIsLoading(false) }] leaves the flag cleared. *)
Lemma finally_clears_loading {A} (body : M A) handler w :
  AppState.isLoading
    (view (App.try_catch_finally body handler (App.setIsLoading false) w).2)
  = false.
Proof.
  unfold App.try_catch_finally, try_finally.
  destruct (try_catch body handler w). reflexivity.
Qed.

(** The setters, [report] included, send nothing. *)
Lemma loadTodos_trace s :
  trace (run App.loadTodos s).2
  = [Called OpFetchTodos;
     Sent {| method := GET;
             url := if bool_decide (AppState.filter s = js "completed")
                    then todoApi.API_BASE_URL ++ js "?isCompleted=" ++ js "true"
                    else if bool_decide (AppState.filter s = js "pending")
                    then todoApi.API_BASE_URL ++ js "?isCompleted=" ++ js "false"
                    else todoApi.API_BASE_URL;
             headers := []; body := None |}].
Proof.
  unfold run, App.loadTodos. unfold_setters. unfold_monad.
  repeat case_bool_decide;
    match goal with
    | |- context [todoApi.fetchTodos ?ic ?w] =>
        pose proof (fetchTodos_world ic w) as Hw;
        destruct (todoApi.fetchTodos ic w) as [[] w']; simpl in *; subst w'
    end; reflexivity.
Qed.

Lemma handleSaveEdit_trace todoId s :
  trace (run (App.handleSaveEdit todoId) s).2
  = if negb (truthy (trim (EditingData.title (AppState.editingData s)))) then []
    else match App.handleSaveEdit_updateData (AppState.editingData s) with
         | Normal updateData =>
             Called OpUpdateTodo ::
             if todoApi.invalid_id todoId then []
             else match todoApi.updateTodo_requestData updateData with
                  | Normal requestData =>
                      [Sent {| method := PATCH;
                               url := todoApi.API_BASE_URL ++ js "/" ++ todoId;
                               headers := todoApi.json_headers;
                               body := Some (JSON_stringify requestData) |}]
                  | Throw _ => []
                  end
         | Throw _ => []
         end.
Proof.
  unfold run, App.handleSaveEdit. unfold_setters. unfold_monad.
  destruct (negb _); simpl; [reflexivity|].
  destruct (App.handleSaveEdit_updateData _); simpl; [|reflexivity].
  client_world; reflexivity.
Qed.

End View.

Section ViewClaims.
Context `{Host}.

Lemma query_literals :
  js "?isCompleted=" ++ js "true" = js "?isCompleted=true"
  ∧ js "?isCompleted=" ++ js "false" = js "?isCompleted=false"
  ∧ js "pending" ≠ js "completed"
  ∧ js "all" ≠ js "completed"
  ∧ js "all" ≠ js "pending".
Proof. vm_compute. repeat split; discriminate. Qed.

(** C4.  Loading the list sends one GET: with the query
    [?isCompleted=true] for the filter "completed", [?isCompleted=false]
    for "pending", and the bare collection URL for "all". *)
Theorem loadTodos_query s :
  (AppState.filter s = js "completed" →
   requests (run App.loadTodos s).2
   = [ {| method := GET; url := todoApi.API_BASE_URL ++ js "?isCompleted=true";
          headers := []; body := None |} ])
  ∧ (AppState.filter s = js "pending" →
     requests (run App.loadTodos s).2
     = [ {| method := GET; url := todoApi.API_BASE_URL ++ js "?isCompleted=false";
            headers := []; body := None |} ])
  ∧ (AppState.filter s = js "all" →
     requests (run App.loadTodos s).2
     = [ {| method := GET; url := todoApi.API_BASE_URL;
            headers := []; body := None |} ]).
Proof.
  destruct query_literals as (Ht & Hf & Hpc & Hac & Hap).
  unfold requests. rewrite loadTodos_trace. simpl.
  split; [|split]; intros ->.
  - rewrite bool_decide_eq_true_2 by done. by rewrite Ht.
  - rewrite bool_decide_eq_false_2, bool_decide_eq_true_2 by done. by rewrite Hf.
  - by rewrite !bool_decide_eq_false_2 by done.
Qed.

(** C7.  With a title that trims to the empty string, [handleAddTodo]
    and [handleSaveEdit] store the validation message and return: no
    function of the client is entered, nothing is sent, and the list is
    as it was. *)
Theorem blank_title_rejected todoId s :
  (trim (AppState.titleInput s) = [] →
   let w := (run App.handleAddTodo s).2 in
   trace w = []
   ∧ AppState.errorMessage (view w) = js "할일 제목을 입력해주세요."
   ∧ AppState.todos (view w) = AppState.todos s
   ∧ AppState.isLoading (view w) = AppState.isLoading s)
  ∧ (trim (EditingData.title (AppState.editingData s)) = [] →
     let w := (run (App.handleSaveEdit todoId) s).2 in
     trace w = []
     ∧ AppState.errorMessage (view w) = js "할일 제목을 입력해주세요."
     ∧ AppState.todos (view w) = AppState.todos s
     ∧ AppState.isLoading (view w) = AppState.isLoading s).
Proof.
  split; intros Hblank; unfold run, App.handleAddTodo, App.handleSaveEdit;
    unfold_setters; unfold_monad; rewrite Hblank; simpl; done.
Qed.

Lemma calls_nil w : trace w = [] → calls w = [].
Proof. unfold calls. by intros ->. Qed.

(** C8.  Each of the five actions that gets past its guard (a title
    that is not blank, a confirmed deletion; loading and toggling have
    none) enters one function of the client and ends with the loading
    flag cleared, whatever the flag was before and however the call
    completed.  A save whose draft date does not parse stops before the
    client, and clears the flag all the same. *)
Theorem loading_cleared todo todoId s :
  (let w := (run App.loadTodos s).2 in
   calls w = [OpFetchTodos] ∧ AppState.isLoading (view w) = false)
  ∧ (trim (AppState.titleInput s) ≠ [] →
     let w := (run App.handleAddTodo s).2 in
     calls w = [OpCreateTodo] ∧ AppState.isLoading (view w) = false)
  ∧ (trim (EditingData.title (AppState.editingData s)) ≠ [] →
     let w := (run (App.handleSaveEdit todoId) s).2 in
     calls w = match App.handleSaveEdit_updateData (AppState.editingData s) with
               | Normal _ => [OpUpdateTodo]
               | Throw _ => []
               end
     ∧ AppState.isLoading (view w) = false)
  ∧ (let w := (run (App.handleToggleComplete todo) s).2 in
     calls w = [OpUpdateTodo] ∧ AppState.isLoading (view w) = false)
  ∧ (confirm (js "정말로 이 할일을 삭제하시겠습니까?") = true →
     let w := (run (App.handleDeleteTodo todoId) s).2 in
     calls w = [OpDeleteTodo] ∧ AppState.isLoading (view w) = false).
Proof.
  split; [|split; [|split; [|split]]].
  - split.
    + unfold calls. by rewrite loadTodos_trace.
    + unfold run, App.loadTodos.
      cbv [mbind M_bind mret M_ret render set_view App.setIsLoading
           App.setErrorMessage].
      apply finally_clears_loading.
  - intros Htitle. split.
    + unfold run, App.handleAddTodo. unfold_setters. unfold_monad.
      destruct (trim (AppState.titleInput s)); [done|]. simpl.
      client_world; unfold calls; simpl; by case_match_all.
    + assert (negb (truthy (trim (AppState.titleInput s))) = false) as Hguard
        by (by destruct (trim _)).
      unfold run, App.handleAddTodo.
      cbv [mbind M_bind mret M_ret render set_view App.setIsLoading
           App.setErrorMessage].
      cbn [view trace]. rewrite Hguard. apply finally_clears_loading.
  - intros Htitle. split.
    + unfold calls. rewrite handleSaveEdit_trace.
      destruct (trim (EditingData.title (AppState.editingData s))); [done|].
      simpl. by case_match_all.
    + assert (negb (truthy (trim (EditingData.title (AppState.editingData s))))
              = false) as Hguard by (by destruct (trim _)).
      unfold run, App.handleSaveEdit.
      cbv [mbind M_bind mret M_ret render set_view App.setIsLoading
           App.setErrorMessage].
      cbn [view trace]. rewrite Hguard. apply finally_clears_loading.
  - split.
    + unfold run, App.handleToggleComplete. unfold_setters. unfold_monad.
      client_world; unfold calls; simpl; by case_match_all.
    + unfold run, App.handleToggleComplete.
      cbv [mbind M_bind mret M_ret render set_view App.setIsLoading
           App.setErrorMessage].
      apply finally_clears_loading.
  - intros Hconfirm. split.
    + unfold run, App.handleDeleteTodo. unfold_setters. unfold_monad.
      rewrite Hconfirm. simpl.
      client_world; unfold calls; simpl; by case_match_all.
    + unfold run, App.handleDeleteTodo.
      cbv [mbind M_bind mret M_ret render set_view App.setIsLoading
           App.setErrorMessage].
      cbn [view trace]. rewrite Hconfirm. apply finally_clears_loading.
Qed.

(** The guards are the only way in: an action that has entered the
    client got past its guard. *)
Lemma called_only_past_guard todoId s :
  (calls (run App.handleAddTodo s).2 ≠ [] → trim (AppState.titleInput s) ≠ [])
  ∧ (calls (run (App.handleSaveEdit todoId) s).2 ≠ [] →
     trim (EditingData.title (AppState.editingData s)) ≠ [])
  ∧ (calls (run (App.handleDeleteTodo todoId) s).2 ≠ [] →
     confirm (js "정말로 이 할일을 삭제하시겠습니까?") = true).
Proof.
  unfold run, App.handleAddTodo, App.handleSaveEdit, App.handleDeleteTodo.
  unfold_setters. unfold_monad.
  split; [|split].
  - destruct (trim (AppState.titleInput s)); [by intros []|done].
  - destruct (trim (EditingData.title (AppState.editingData s)));
      [by intros []|done].
  - destruct (confirm _); [done|by intros []].
Qed.

(** The handlers catch whatever the client throws: each of the five
    actions returns normally. *)
Lemma try_catch_finally_completes (body : M unit) cleanup w :
  (∀ w', (cleanup w').1 = Normal tt) →
  (App.try_catch_finally body App.report cleanup w).1 = Normal tt.
Proof.
  intros Hcleanup.
  unfold App.try_catch_finally, try_finally, try_catch, App.report,
    App.setErrorMessage, set_view.
  destruct (body w) as [[[]|e] w']; simpl;
    match goal with |- context [cleanup ?w] =>
      specialize (Hcleanup w); by destruct (cleanup w) as [[[]|] ?] end.
Qed.

Lemma actions_complete todo todoId s :
  (run App.loadTodos s).1 = Normal tt
  ∧ (run App.handleAddTodo s).1 = Normal tt
  ∧ (run (App.handleSaveEdit todoId) s).1 = Normal tt
  ∧ (run (App.handleToggleComplete todo) s).1 = Normal tt
  ∧ (run (App.handleDeleteTodo todoId) s).1 = Normal tt.
Proof.
  unfold run, App.loadTodos, App.handleAddTodo, App.handleSaveEdit,
    App.handleToggleComplete, App.handleDeleteTodo.
  cbv [mbind M_bind mret M_ret render set_view App.setIsLoading App.setErrorMessage].
  split; [|split; [|split; [|split]]];
    try (destruct (negb _); [reflexivity|]);
    by apply try_catch_finally_completes.
Qed.

(** The message of an HTTP error reaches the banner unchanged: what
    [handleResponseError] throws for the response is what [loadTodos]
    stores in [errorMessage]. *)
Lemma loadTodos_reports_response_error s response msg :
  (∀ r, fetch r = Resolved response) →
  ok response = false →
  @todoApi.handleResponseError _ unit response
  = Throw {| class := Error; message := msg |} →
  AppState.errorMessage (view (run App.loadTodos s).2) = msg.
Proof.
  intros Hfetch Hok Hthrow.
  unfold run, App.loadTodos, todoApi.fetchTodos, await_fetch.
  unfold_setters. unfold_monad.
  repeat case_bool_decide; rewrite Hfetch; simpl; rewrite Hok; simpl;
    rewrite Hthrow; reflexivity.
Qed.

(** So a plain-text error body is shown cut to 200 code units, when the
    status is not 500. *)
Lemma loadTodos_shows_text_body s response t :
  (∀ r, fetch r = Resolved response) →
  ok response = false → status response ≠ 500 →
  text response = Some t → t ≠ [] → JSON_parse t = None →
  AppState.errorMessage (view (run App.loadTodos s).2) = substring0 200 t.
Proof.
  intros Hfetch Hok Hs%N.eqb_neq Ht Hne Hjson.
  apply (loadTodos_reports_response_error _ response); [done..|].
  erewrite handleResponseError_throws
    by (by rewrite (baseMessage_not_json _ _ Ht Hne Hjson)).
  by rewrite Hs.
Qed.

End ViewClaims.

Section SaveEdit.
Context `{Host}.

Lemma handleSaveEdit_updateData_no_dueDate editingData :
  EditingData.dueDate editingData = [] →
  ∃ updateData,
    App.handleSaveEdit_updateData editingData = Normal updateData
    ∧ get updateData "dueDate" = JUndefined.
Proof.
  intros Hdraft. unfold App.handleSaveEdit_updateData. rewrite Hdraft. simpl.
  eexists. split; [reflexivity|].
  unfold get. by rewrite !lookup_insert_ne, lookup_singleton_ne.
Qed.

(** C10.  When the draft's due date is the empty string, the PATCH that
    [handleSaveEdit] sends has no [dueDate] member. *)
Theorem saveEdit_without_dueDate todoId s r :
  EditingData.dueDate (AppState.editingData s) = [] →
  r ∈ requests (run (App.handleSaveEdit todoId) s).2 →
  ∃ doc, body r = Some doc ∧ doc !! "dueDate" = None.
Proof.
  intros (updateData & Hud & Hdue)%handleSaveEdit_updateData_no_dueDate.
  unfold requests. rewrite handleSaveEdit_trace, Hud.
  destruct (negb _); simpl; [by intros ?%elem_of_nil|].
  destruct (todoApi.invalid_id todoId); simpl; [by intros ?%elem_of_nil|].
  destruct (todoApi.updateTodo_requestData updateData) as [requestData|] eqn:Hrd;
    simpl; [|by intros ?%elem_of_nil].
  intros ->%list_elem_of_singleton. eexists. split; [reflexivity|].
  apply eq_None_not_Some.
  intros Hsome%(updateTodo_requestData_lookup _ _ _ Hrd). by destruct Hsome.
Qed.

(** Whatever the draft, the [dueDate] member of the PATCH, when there is
    one, is the ISO text of the date the draft parses to: no save sends
    [null] or the empty string, so none clears a due date. *)
Lemma saveEdit_dueDate_is_a_date todoId s r doc :
  r ∈ requests (run (App.handleSaveEdit todoId) s).2 →
  body r = Some doc →
  doc !! "dueDate" = None
  ∨ ∃ iso, Date_parse (EditingData.dueDate (AppState.editingData s)) = Some iso
           ∧ doc !! "dueDate" = Some (JsonStr iso).
Proof.
  unfold requests. rewrite handleSaveEdit_trace.
  destruct (negb _); simpl; [by intros ?%elem_of_nil|].
  destruct (App.handleSaveEdit_updateData _) as [updateData|] eqn:Hud;
    simpl; [|by intros ?%elem_of_nil].
  destruct (todoApi.invalid_id todoId); simpl; [by intros ?%elem_of_nil|].
  destruct (todoApi.updateTodo_requestData updateData) as [requestData|] eqn:Hrd;
    simpl; [|by intros ?%elem_of_nil].
  intros ->%list_elem_of_singleton [= <-].
  apply updateTodo_requestData_inv in Hrd as ->.
  revert Hud. unfold App.handleSaveEdit_updateData, toISOString.
  cbv [mbind mret Completion_bind Completion_ret].
  destruct (truthy _).
  - destruct (Date_parse _) as [iso|]; [|done]. intros [= <-].
    right. exists iso. split; [done|].
    unfold JSON_stringify, get.
    rewrite lookup_omap, !lookup_put, lookup_insert_eq. simpl.
    by rewrite andb_false_r.
  - intros [= <-]. left.
    unfold JSON_stringify, get.
    rewrite lookup_omap, !lookup_put, lookup_empty. simpl.
    by rewrite andb_false_r.
Qed.

(** The save does reach the server when the title is not blank and the
    identifier is accepted: one PATCH, to the entity's URL. *)
Lemma saveEdit_sends todoId s :
  trim (EditingData.title (AppState.editingData s)) ≠ [] →
  EditingData.dueDate (AppState.editingData s) = [] →
  todoApi.invalid_id todoId = false →
  ∃ doc,
    requests (run (App.handleSaveEdit todoId) s).2
    = [ {| method := PATCH; url := todoApi.API_BASE_URL ++ js "/" ++ todoId;
           headers := todoApi.json_headers; body := Some doc |} ].
Proof.
  intros Htitle (updateData & Hud & Hdue)%handleSaveEdit_updateData_no_dueDate Hid.
  unfold requests. rewrite handleSaveEdit_trace, Hud, Hid.
  destruct (trim _); [done|]. simpl.
  destruct (todoApi.updateTodo_requestData updateData) eqn:Hrd; simpl; [eauto|].
  exfalso. revert Hrd. unfold todoApi.updateTodo_requestData.
  cbv [mbind mret Completion_bind Completion_ret].
  rewrite Hdue. simpl. done.
Qed.

End SaveEdit.

(** ** Instances *)

(** C2 at work: an unreadable 500 gets the guidance, an unreadable 503
    does not. *)
Lemma handleResponseError_guidance_witness :
  @todoApi.handleResponseError serving unit (respond 500 None)
  = Throw {| class := Error;
             message := js "서버 내부 오류가 발생했습니다. 잠시 후 다시 시도해주세요."
                        ++ todoApi.guidance |}
  ∧ @todoApi.handleResponseError serving unit (respond 503 None)
    = Throw {| class := Error; message := js "서버 오류 (503)" |}.
Proof.
  split.
  - refine (proj1 (@handleResponseError_guidance serving unit
                     (respond 500 None) _ _) _);
      vm_compute; reflexivity.
  - refine (proj2 (@handleResponseError_guidance serving unit
                     (respond 503 None) _ _) _);
      vm_compute; [reflexivity|discriminate].
Defined.

(** C2 as stated fails: a 503 gets no guidance. *)
Lemma guidance_on_every_5xx_counterexample :
  ¬ (∀ (H : Host) (response : Response) (base : jsstring),
       500 ≤ status response ≤ 599 →
       ToString (todoApi.baseMessage response) = Some base →
       @todoApi.handleResponseError H unit response
       = Throw {| class := Error; message := base ++ todoApi.guidance |}).
Proof.
  intros C.
  assert (500 ≤ status (respond 503 None) ≤ 599) as Hstatus by (simpl; lia).
  assert (ToString (@todoApi.baseMessage serving (respond 503 None))
          = Some (js "서버 오류 (503)")) as Hbase by (vm_compute; reflexivity).
  pose proof (C serving _ _ Hstatus Hbase) as Heq.
  vm_compute in Heq. discriminate Heq.
Qed.

(** C3 at work, on a 404 whose body cannot be read. *)
Lemma handleResponseError_404_unreadable_witness :
  @todoApi.handleResponseError serving unit (respond 404 None)
  = Throw {| class := Error; message := js "요청한 리소스를 찾을 수 없습니다." |}.
Proof.
  apply (@handleResponseError_404_unreadable serving unit (respond 404 None));
    reflexivity.
Defined.

(** C3 as stated fails: a 404 with an empty body reports the generic
    message. *)
Lemma every_404_fixed_message_counterexample :
  ¬ (∀ (H : Host) (response : Response),
       status response = 404 →
       @todoApi.handleResponseError H unit response
       = Throw {| class := Error; message := js "요청한 리소스를 찾을 수 없습니다." |}).
Proof.
  intros C.
  pose proof (C serving (respond 404 (Some [])) eq_refl) as Heq.
  vm_compute in Heq. discriminate Heq.
Qed.

(** C9 at work, on a 404 with the body [Not Found]. *)
Lemma handleResponseError_text_body_witness :
  @todoApi.handleResponseError serving unit (respond 404 (Some (js "Not Found")))
  = Throw {| class := Error;
             message := if status (respond 404 (Some (js "Not Found"))) =? 500
                        then substring0 200 (js "Not Found") ++ todoApi.guidance
                        else substring0 200 (js "Not Found") |}
  ∧ (length (substring0 200 (js "Not Found")) ≤ 200)%nat.
Proof.
  apply (@handleResponseError_text_body serving unit
           (respond 404 (Some (js "Not Found"))) (js "Not Found"));
    vm_compute; [reflexivity|discriminate|reflexivity].
Defined.

(** C9 as stated fails: for status 500 the guidance follows the text. *)
Lemma text_body_alone_counterexample :
  ¬ (∀ (H : Host) (response : Response) (t : jsstring),
       text response = Some t → t ≠ [] → JSON_parse t = None →
       @todoApi.handleResponseError H unit response
       = Throw {| class := Error; message := substring0 200 t |}).
Proof.
  intros C.
  assert (js "oops" ≠ []) as Hne by (vm_compute; discriminate).
  assert (@JSON_parse serving (js "oops") = None) as Hjson
    by (vm_compute; reflexivity).
  pose proof (C serving (respond 500 (Some (js "oops"))) _ eq_refl Hne Hjson)
    as Heq.
  vm_compute in Heq. discriminate Heq.
Qed.

(** C1 as stated fails: the body of a title-only create also has
    [isCompleted]. *)
Lemma createTodo_title_alone_counterexample :
  ¬ (∀ (H : Host) (title : jsstring) (s : AppState.t) (r : Request),
       trim title ≠ [] →
       r ∈ requests
             (run (todoApi.createTodo title JUndefined JUndefined JUndefined) s).2 →
       ∃ doc, body r = Some doc ∧ dom doc = {[ "title" ]}).
Proof.
  intros C.
  assert (trim (js "Buy milk") ≠ []) as Hne by (vm_compute; discriminate).
  pose proof (@title_only_requests serving (js "Buy milk") App.initial)
    as Hreq.
  destruct (C serving (js "Buy milk") App.initial _ Hne
              ltac:(rewrite Hreq; apply list_elem_of_here))
    as (doc & [= <-] & Hdom).
  assert ("isCompleted" ∈ dom (<["isCompleted" := JsonBool false]>
             ({[ "title" := JsonStr (trim (js "Buy milk")) ]} : gmap string Json)))
    as Hin by (rewrite dom_insert_L; set_solver).
  rewrite Hdom in Hin. by apply elem_of_singleton in Hin.
Qed.

(** C6 at work, on the identifier "undefined". *)
Lemma invalid_id_rejected_witness :
  (run (@todoApi.deleteTodo serving (js "undefined")) App.initial).1
    = Throw {| class := Error; message := js "유효하지 않은 할일 ID입니다" |}
  ∧ requests (run (@todoApi.deleteTodo serving (js "undefined")) App.initial).2 = []
  ∧ (run (@todoApi.updateTodo serving (js "undefined") sample_update) App.initial).1
    = Throw {| class := Error; message := js "유효하지 않은 할일 ID입니다" |}
  ∧ requests (run (@todoApi.updateTodo serving (js "undefined") sample_update)
                App.initial).2 = [].
Proof.
  apply (@invalid_id_rejected serving (js "undefined") sample_update App.initial).
  right. left. reflexivity.
Defined.

(** C5 at work, on [sample_update] and the PATCH it produces. *)
Lemma updateTodo_body_fields_witness :
  ∃ doc, body sample_patch = Some doc
    ∧ (∀ name, is_Some (doc !! name)
               ↔ name ∈ mutable_fields ∧ get sample_update name ≠ JUndefined)
    ∧ (get sample_update "isCompleted" ≠ JUndefined →
       doc !! "isCompleted"
       = Some (JsonBool (ToBoolean (get sample_update "isCompleted")))).
Proof.
  apply (@updateTodo_body_fields serving (js "42") sample_update App.initial
           sample_patch).
  vm_compute. apply list_elem_of_here.
Defined.

(** C4 at work, on one view per filter. *)
Lemma loadTodos_query_witness :
  requests (run (@App.loadTodos serving)
              (sample_view (js "completed") [] App.blankEditingData)).2
  = [ {| method := GET;
         url := @todoApi.API_BASE_URL serving ++ js "?isCompleted=true";
         headers := []; body := None |} ]
  ∧ requests (run (@App.loadTodos serving)
                (sample_view (js "pending") [] App.blankEditingData)).2
    = [ {| method := GET;
           url := @todoApi.API_BASE_URL serving ++ js "?isCompleted=false";
           headers := []; body := None |} ]
  ∧ requests (run (@App.loadTodos serving) App.initial).2
    = [ {| method := GET; url := @todoApi.API_BASE_URL serving;
           headers := []; body := None |} ].
Proof.
  split; [|split].
  - apply (proj1 (@loadTodos_query serving
                    (sample_view (js "completed") [] App.blankEditingData))).
    reflexivity.
  - apply (proj1 (proj2 (@loadTodos_query serving
                           (sample_view (js "pending") [] App.blankEditingData)))).
    reflexivity.
  - apply (proj2 (proj2 (@loadTodos_query serving App.initial))).
    reflexivity.
Defined.

(** C7 at work, on a form and a draft whose titles are blanks. *)
Lemma blank_title_rejected_witness :
  (let w := (run (@App.handleAddTodo serving)
               (sample_view (js "all") (js "   ") (draft (js " ") []))).2 in
   trace w = []
   ∧ AppState.errorMessage (view w) = js "할일 제목을 입력해주세요."
   ∧ AppState.todos (view w) = [buy_milk]
   ∧ AppState.isLoading (view w) = false)
  ∧ (let w := (run (@App.handleSaveEdit serving (js "42"))
                 (sample_view (js "all") (js "   ") (draft (js " ") []))).2 in
     trace w = []
     ∧ AppState.errorMessage (view w) = js "할일 제목을 입력해주세요."
     ∧ AppState.todos (view w) = [buy_milk]
     ∧ AppState.isLoading (view w) = false).
Proof.
  split.
  - apply (proj1 (@blank_title_rejected serving (js "42")
                    (sample_view (js "all") (js "   ") (draft (js " ") [])))).
    vm_compute. reflexivity.
  - apply (proj2 (@blank_title_rejected serving (js "42")
                    (sample_view (js "all") (js "   ") (draft (js " ") [])))).
    vm_compute. reflexivity.
Defined.

(** C8 at work, from a view whose flag is set: on the failure path
    (every request answered 500) as on the success path, each action
    enters the client and ends with the flag cleared. *)
Lemma loading_cleared_witness :
  AppState.isLoading waiting_view = true
  ∧ ((let w := (run (@App.loadTodos failing) waiting_view).2 in
      calls w = [OpFetchTodos] ∧ AppState.isLoading (view w) = false)
     ∧ (let w := (run (@App.handleAddTodo failing) waiting_view).2 in
        calls w = [OpCreateTodo] ∧ AppState.isLoading (view w) = false)
     ∧ (let w := (run (@App.handleSaveEdit failing (js "42")) waiting_view).2 in
        calls w = [OpUpdateTodo] ∧ AppState.isLoading (view w) = false)
     ∧ (let w := (run (@App.handleToggleComplete failing buy_milk) waiting_view).2 in
        calls w = [OpUpdateTodo] ∧ AppState.isLoading (view w) = false)
     ∧ (let w := (run (@App.handleDeleteTodo failing (js "42")) waiting_view).2 in
        calls w = [OpDeleteTodo] ∧ AppState.isLoading (view w) = false))
  ∧ ((let w := (run (@App.loadTodos serving) waiting_view).2 in
      calls w = [OpFetchTodos] ∧ AppState.isLoading (view w) = false)
     ∧ (let w := (run (@App.handleAddTodo serving) waiting_view).2 in
        calls w = [OpCreateTodo] ∧ AppState.isLoading (view w) = false)
     ∧ (let w := (run (@App.handleSaveEdit serving (js "42")) waiting_view).2 in
        calls w = [OpUpdateTodo] ∧ AppState.isLoading (view w) = false)
     ∧ (let w := (run (@App.handleToggleComplete serving buy_milk) waiting_view).2 in
        calls w = [OpUpdateTodo] ∧ AppState.isLoading (view w) = false)
     ∧ (let w := (run (@App.handleDeleteTodo serving (js "42")) waiting_view).2 in
        calls w = [OpDeleteTodo] ∧ AppState.isLoading (view w) = false)).
Proof.
  assert (trim (AppState.titleInput waiting_view) ≠ []) as Htitle
    by (vm_compute; discriminate).
  assert (trim (EditingData.title (AppState.editingData waiting_view)) ≠ [])
    as Hdraft by (vm_compute; discriminate).
  pose proof (@loading_cleared failing buy_milk (js "42") waiting_view)
    as (Hload & Hadd & Hsave & Htoggle & Hdelete).
  pose proof (@loading_cleared serving buy_milk (js "42") waiting_view)
    as (Hload' & Hadd' & Hsave' & Htoggle' & Hdelete').
  split; [reflexivity|].
  split; (split; [|split; [|split; [|split]]]).
  - exact Hload.
  - exact (Hadd Htitle).
  - exact (Hsave Hdraft).
  - exact Htoggle.
  - exact (Hdelete eq_refl).
  - exact Hload'.
  - exact (Hadd' Htitle).
  - exact (Hsave' Hdraft).
  - exact Htoggle'.
  - exact (Hdelete' eq_refl).
Defined.

(** C10 at work, on the draft of [busy_view]. *)
Lemma saveEdit_without_dueDate_witness :
  ∃ doc, body busy_patch = Some doc ∧ doc !! "dueDate" = None.
Proof.
  apply (@saveEdit_without_dueDate serving (js "42") busy_view busy_patch).
  - reflexivity.
  - vm_compute. apply list_elem_of_here.
Defined.

(** ** The actions on the sample server *)

(** A created task goes to the head of the list, and the form is
    cleared. *)
Example handleAddTodo_prepends :
  let w := (run (@App.handleAddTodo serving) busy_view).2 in
  AppState.todos (view w) = [buy_milk; buy_milk]
  ∧ AppState.titleInput (view w) = []
  ∧ AppState.errorMessage (view w) = []
  ∧ calls w = [OpCreateTodo].
Proof. vm_compute. done. Qed.

(** A deleted task leaves the list. *)
Example handleDeleteTodo_removes :
  AppState.todos (view (run (@App.handleDeleteTodo serving (js "42")) busy_view).2)
  = [].
Proof. vm_compute. reflexivity. Qed.

(** On the failing server the banner shows the body and the guidance. *)
Example loadTodos_failing_banner :
  AppState.errorMessage (view (run (@App.loadTodos failing) busy_view).2)
  = js "oops" ++ todoApi.guidance.
Proof. vm_compute. reflexivity. Qed.

(** * Further properties *)

(** ** [handleResponseError]: where the message comes from *)

Section ErrorMessages.
Context `{Host}.

Lemma baseMessage_json response t errorData :
  text response = Some t → JSON_parse t = Some errorData →
  todoApi.baseMessage response
  = or_else (optional_member errorData (js "message"))
      (or_else (optional_member errorData (js "error"))
         (JsonStr (js "서버 오류 (" ++ of_N (status response) ++ js ")"))).
Proof. unfold todoApi.baseMessage. by intros -> ->. Qed.

(** A JSON body with a non-empty string [message] gives that message,
    whatever else the body holds; for status 500 the guidance follows. *)
Theorem handleResponseError_json_message {A} response t errorData m :
  text response = Some t → JSON_parse t = Some errorData →
  optional_member errorData (js "message") = Some (JsonStr m) → m ≠ [] →
  @todoApi.handleResponseError _ A response
  = Throw {| class := Error;
             message := if status response =? 500
                        then m ++ todoApi.guidance else m |}.
Proof.
  intros Ht Hjson Hm Hne. apply handleResponseError_throws.
  rewrite (baseMessage_json _ _ _ Ht Hjson), Hm.
  destruct m; [done|]. reflexivity.
Qed.

(** [error] is the second choice: it is used when the body has no
    [message], or a falsy one. *)
Theorem handleResponseError_json_error {A} response t errorData e :
  text response = Some t → JSON_parse t = Some errorData →
  (∀ v, optional_member errorData (js "message") = Some v → Json_truthy v = false) →
  optional_member errorData (js "error") = Some (JsonStr e) → e ≠ [] →
  @todoApi.handleResponseError _ A response
  = Throw {| class := Error;
             message := if status response =? 500
                        then e ++ todoApi.guidance else e |}.
Proof.
  intros Ht Hjson Hm He Hne. apply handleResponseError_throws.
  rewrite (baseMessage_json _ _ _ Ht Hjson), He.
  destruct e; [done|].
  destruct (optional_member errorData (js "message")) as [v|] eqn:Hv; simpl.
  - by rewrite (Hm v eq_refl).
  - reflexivity.
Qed.

(** A readable body that offers nothing (no text at all, or JSON with
    neither a truthy [message] nor a truthy [error]) leaves the generic
    message that carries the status number. *)
Theorem handleResponseError_generic {A} response t :
  text response = Some t →
  (t = [] ∧ JSON_parse t = None)
  ∨ (∃ errorData, JSON_parse t = Some errorData
       ∧ (∀ name v, name ∈ [js "message"; js "error"] →
            optional_member errorData name = Some v → Json_truthy v = false)) →
  @todoApi.handleResponseError _ A response
  = Throw {| class := Error;
             message :=
               if status response =? 500
               then (js "서버 오류 (" ++ of_N (status response) ++ js ")")
                    ++ todoApi.guidance
               else js "서버 오류 (" ++ of_N (status response) ++ js ")" |}.
Proof.
  intros Ht Hbody.
  apply handleResponseError_throws.
  destruct Hbody as [[-> Hjson]|(errorData & Hjson & Hnone)].
  - unfold todoApi.baseMessage. by rewrite Ht, Hjson.
  - rewrite (baseMessage_json _ _ _ Ht Hjson). unfold or_else.
    destruct (optional_member errorData (js "message")) as [v|] eqn:Hv;
      [rewrite (Hnone (js "message") _ ltac:(set_solver) Hv)|];
      (destruct (optional_member errorData (js "error")) as [v'|] eqn:Hv';
       [rewrite (Hnone (js "error") _ ltac:(set_solver) Hv')|]); reflexivity.
Qed.

(** When the body cannot be read the message depends on the status
    alone: a fixed text for 400, 401, 403 and 500 (404 is C3), the
    generic one for every other status. *)
Theorem handleResponseError_unreadable {A} response :
  text response = None →
  (status response = 400 →
   @todoApi.handleResponseError _ A response
   = Throw {| class := Error; message := js "잘못된 요청입니다. 입력값을 확인해주세요." |})
  ∧ (status response = 401 →
     @todoApi.handleResponseError _ A response
     = Throw {| class := Error; message := js "인증이 필요합니다." |})
  ∧ (status response = 403 →
     @todoApi.handleResponseError _ A response
     = Throw {| class := Error; message := js "접근 권한이 없습니다." |})
  ∧ (status response = 500 →
     @todoApi.handleResponseError _ A response
     = Throw {| class := Error;
                message := js "서버 내부 오류가 발생했습니다. 잠시 후 다시 시도해주세요."
                           ++ todoApi.guidance |})
  ∧ (status response ∉ [400; 401; 403; 404; 500] →
     @todoApi.handleResponseError _ A response
     = Throw {| class := Error;
                message := js "서버 오류 (" ++ of_N (status response) ++ js ")" |}).
Proof.
  intros Ht.
  pose proof (λ base, @handleResponseError_throws _ A response base) as Hthrow.
  rewrite (baseMessage_unreadable _ Ht) in Hthrow. simpl in Hthrow.
  split; [|split; [|split; [|split]]]; intros Hs; rewrite (Hthrow _ eq_refl).
  1-4: by rewrite Hs.
  unfold todoApi.statusMessage.
  repeat match goal with
  | |- context [status response =? ?n] =>
      destruct (N.eqb_spec (status response) n) as [Heq|_];
      [exfalso; apply Hs; rewrite Heq; set_solver|]
  end.
  reflexivity.
Qed.

Lemma handleResponseError_throws_some {A} response :
  ∃ e, @todoApi.handleResponseError _ A response = Throw e
       ∧ (class e = Error ∨ e = {| class := TypeError;
                                    message := fault_message NotPrimitive |}).
Proof.
  destruct (ToString (todoApi.baseMessage response)) as [base|] eqn:Hbase.
  - eexists. split; [by apply handleResponseError_throws|]. by left.
  - eexists. split; [|by right].
    unfold todoApi.handleResponseError, todoApi.append, raise.
    cbv [mbind mret Completion_bind Completion_ret].
    destruct (status response =? 500); by rewrite Hbase.
Qed.

(** [handleResponseError] never returns a value: it throws for every
    response, an [Error], or the engine's [TypeError] when the message
    found in the body cannot be made a string. *)
Theorem handleResponseError_never_returns {A} response :
  (∀ a, @todoApi.handleResponseError _ A response ≠ Normal a)
  ∧ ∃ e, @todoApi.handleResponseError _ A response = Throw e
         ∧ (class e = Error ∨ e = {| class := TypeError;
                                      message := fault_message NotPrimitive |}).
Proof.
  destruct (handleResponseError_throws_some (A:=A) response) as (e & He & Hclass).
  split; [intros a; by rewrite He|]. eauto.
Qed.

End ErrorMessages.

(** ** The client: how each call completes *)

Section ClientOutcomes.
Context `{Host}.

(** How a function of the client completes depends on the host, not on
    the view or on what was sent before. *)
Lemma client_completion w w' :
  (∀ ic, (todoApi.fetchTodos ic w).1 = (todoApi.fetchTodos ic w').1)
  ∧ (∀ t d u c, (todoApi.createTodo t d u c w).1 = (todoApi.createTodo t d u c w').1)
  ∧ (∀ id ud, (todoApi.updateTodo id ud w).1 = (todoApi.updateTodo id ud w').1)
  ∧ (∀ id, (todoApi.deleteTodo id w).1 = (todoApi.deleteTodo id w').1).
Proof.
  split; [|split; [|split]]; intros;
    unfold todoApi.fetchTodos, todoApi.createTodo, todoApi.updateTodo,
      todoApi.deleteTodo, todoApi.rethrow, await_fetch;
    unfold_monad; case_match_all; congruence.
Qed.

(** [fetchTodos] returns the list the server sent, when the response is
    a success whose body is such a list. *)
Theorem fetchTodos_returns isCompleted s response t l :
  (∀ r, fetch r = Resolved response) → ok response = true →
  text response = Some t → parse_TodoItems t = Some l →
  (run (todoApi.fetchTodos isCompleted) s).1 = Normal l.
Proof.
  intros Hfetch Hok Ht Hl.
  unfold run, todoApi.fetchTodos, await_fetch, response_json. unfold_monad.
  rewrite Hfetch. simpl. rewrite Hok. simpl. by rewrite Ht, Hl.
Qed.

(** A rejected [fetch] whose message names "fetch" or "network" becomes,
    in [fetchTodos], the connectivity error that names the endpoint. *)
Theorem fetchTodos_network_error isCompleted s msg :
  (∀ r, fetch r = Rejected msg) →
  includes (js "fetch") msg || includes (js "Failed to fetch") msg
  || includes (js "network") msg || includes (js "NetworkError") msg = true →
  ∃ rest,
    (run (todoApi.fetchTodos isCompleted) s).1
    = Throw {| class := Error;
               message := js "백엔드 서버(" ++ todoApi.API_BASE_URL
                          ++ js ")에 연결할 수 없습니다." ++ rest |}.
Proof.
  intros Hfetch Hmsg.
  unfold run, todoApi.fetchTodos, await_fetch. unfold_monad.
  rewrite Hfetch. simpl. rewrite Hmsg. simpl. eexists. reflexivity.
Qed.

(** The three mutations look for "fetch" alone: a rejection whose
    message has it becomes a fixed connectivity error, any other
    rejection is thrown on as it came. *)
Theorem mutations_network_error title description dueDate isCompleted
    id updateData s msg requestData requestData' :
  (∀ r, fetch r = Rejected msg) →
  todoApi.createTodo_requestData title
    (todoApi.or_default description (JStr []))
    (todoApi.or_default dueDate JNull)
    (todoApi.or_default isCompleted (JBool false)) = Normal requestData →
  todoApi.updateTodo_requestData updateData = Normal requestData' →
  todoApi.invalid_id id = false →
  let thrown : JsError :=
    if includes (js "fetch") msg
    then {| class := Error;
            message := js "백엔드 서버에 연결할 수 없습니다. 서버가 실행 중인지 확인해주세요." |}
    else {| class := TypeError; message := msg |} in
  (run (todoApi.createTodo title description dueDate isCompleted) s).1 = Throw thrown
  ∧ (run (todoApi.updateTodo id updateData) s).1 = Throw thrown
  ∧ (run (todoApi.deleteTodo id) s).1 = Throw thrown.
Proof.
  intros Hfetch Hcreate Hupdate Hid.
  unfold run, todoApi.createTodo, todoApi.updateTodo, todoApi.deleteTodo,
    todoApi.check_id, todoApi.rethrow, await_fetch.
  unfold_monad. rewrite Hcreate, Hupdate, Hid. simpl. rewrite !Hfetch. simpl.
  by destruct (includes (js "fetch") msg).
Qed.

Lemma not_ok_not_204 response : ok response = false → (status response =? 204) = false.
Proof.
  unfold ok. intros Hok. apply N.eqb_neq. intros Hs. rewrite Hs in Hok.
  discriminate Hok.
Qed.

(** An HTTP error passes through the client unchanged: for a response
    that is not a success, each of the four functions throws the very
    error [handleResponseError] makes of it. *)
Theorem http_error_propagates title description dueDate isCompleted
    id updateData ic s response e requestData requestData' :
  (∀ r, fetch r = Resolved response) → ok response = false →
  @todoApi.handleResponseError _ unit response = Throw e → class e = Error →
  todoApi.createTodo_requestData title
    (todoApi.or_default description (JStr []))
    (todoApi.or_default dueDate JNull)
    (todoApi.or_default isCompleted (JBool false)) = Normal requestData →
  todoApi.updateTodo_requestData updateData = Normal requestData' →
  todoApi.invalid_id id = false →
  (run (todoApi.fetchTodos ic) s).1 = Throw e
  ∧ (run (todoApi.createTodo title description dueDate isCompleted) s).1 = Throw e
  ∧ (run (todoApi.updateTodo id updateData) s).1 = Throw e
  ∧ (run (todoApi.deleteTodo id) s).1 = Throw e.
Proof.
  intros Hfetch Hok Hthrow Hclass Hcreate Hupdate Hid.
  pose proof (not_ok_not_204 _ Hok) as H204.
  unfold run, todoApi.fetchTodos, todoApi.createTodo, todoApi.updateTodo,
    todoApi.deleteTodo, todoApi.check_id, todoApi.rethrow, await_fetch.
  unfold_monad. rewrite Hcreate, Hupdate, Hid. simpl. rewrite !Hfetch. simpl.
  rewrite Hok, H204, Hthrow. simpl.
  unfold todoApi.is_TypeError. rewrite Hclass. simpl. done.
Qed.

(** [deleteTodo] returns exactly when the response is a success: the
    extra test for 204 changes nothing, 204 being a success already. *)
Theorem deleteTodo_succeeds_iff_ok id s response :
  todoApi.invalid_id id = false → (∀ r, fetch r = Resolved response) →
  (run (todoApi.deleteTodo id) s).1 = Normal tt ↔ ok response = true.
Proof.
  intros Hid Hfetch.
  unfold run, todoApi.deleteTodo, todoApi.check_id, todoApi.rethrow, await_fetch.
  unfold_monad. rewrite Hid. simpl. rewrite Hfetch. simpl.
  destruct (ok response) eqn:Hok; simpl; [done|].
  rewrite (not_ok_not_204 _ Hok). simpl.
  destruct (handleResponseError_throws_some (A:=unit) response) as (e & -> & _).
  simpl. split; [|done]. by destruct (_ && _).
Qed.

End ClientOutcomes.

(** ** The client: what the requests carry *)

Section RequestBodies.
Context `{Host}.

Lemma trim_truthy d : truthy (trim d) = true → truthy d = true.
Proof. destruct d; [vm_compute; discriminate|done]. Qed.

Lemma createTodo_requestData_valid title d dueDate isCompleted :
  dueDate ≠ JDate None →
  todoApi.createTodo_requestData title (JStr d) dueDate isCompleted
  = Normal
      (match isCompleted with
       | JBool b => <["isCompleted" := JBool b]>
       | _ => λ o, o
       end
         (put "dueDate" (iso_or_self dueDate) (ToBoolean dueDate)
            (put "description" (JStr (trim d)) (truthy (trim d))
               {[ "title" := JStr (trim title) ]}))).
Proof.
  intros Hdate. unfold todoApi.createTodo_requestData, put.
  cbv [mbind mret Completion_bind Completion_ret].
  assert (truthy d && truthy (trim d) = truthy (trim d)) as ->.
  { destruct (truthy (trim d)) eqn:Ht; [by rewrite (trim_truthy _ Ht)|].
    by rewrite andb_false_r. }
  destruct (ToBoolean dueDate) eqn:Hdue.
  - destruct dueDate as [| | | | |[iso|]]; simpl; try done; by destruct isCompleted.
  - by destruct isCompleted.
Qed.

(** The body of the POST, member by member: the trimmed title always;
    [description] when it does not trim to nothing, trimmed; [dueDate]
    when it is truthy, a [Date] as its ISO text; [isCompleted] when it is
    a boolean, [false] standing in for a missing one. *)
Theorem createTodo_body title d dueDate isCompleted s :
  dueDate ≠ JDate None →
  ∃ doc,
    requests (run (todoApi.createTodo title (JStr d) dueDate isCompleted) s).2
    = [ {| method := POST; url := todoApi.API_BASE_URL;
           headers := todoApi.json_headers; body := Some doc |} ]
    ∧ doc !! "title" = Some (JsonStr (trim title))
    ∧ doc !! "description"
      = (if truthy (trim d) then Some (JsonStr (trim d)) else None)
    ∧ doc !! "dueDate"
      = (if ToBoolean dueDate then toJSON (iso_or_self dueDate) else None)
    ∧ doc !! "isCompleted"
      = match isCompleted with
        | JBool b => Some (JsonBool b)
        | JUndefined => Some (JsonBool false)
        | _ => None
        end.
Proof.
  intros Hdate. unfold run. rewrite createTodo_world. simpl.
  assert (todoApi.or_default dueDate JNull ≠ JDate None) as Hdate'
    by (by destruct dueDate).
  rewrite (createTodo_requestData_valid _ _ _ _ Hdate').
  unfold requests. simpl. eexists. split; [reflexivity|].
  assert (ToBoolean (todoApi.or_default dueDate JNull) = ToBoolean dueDate) as ->
    by (by destruct dueDate).
  assert (ToBoolean dueDate = true →
          iso_or_self (todoApi.or_default dueDate JNull) = iso_or_self dueDate) as Hiso
    by (by destruct dueDate).
  unfold JSON_stringify. rewrite !lookup_omap.
  destruct isCompleted; simpl;
    rewrite ?lookup_insert_eq, ?lookup_insert_ne by done;
    rewrite !lookup_put; simpl; rewrite ?andb_true_r, ?andb_false_r;
    rewrite ?lookup_put; simpl; rewrite ?andb_true_r, ?andb_false_r;
    rewrite ?lookup_singleton_eq, ?lookup_singleton_ne by done;
    (split; [done|]); (split; [by destruct (truthy (trim d))|]);
    (split; [|done]);
    (destruct (ToBoolean dueDate) eqn:Hdue; [by rewrite Hiso|done]).
Qed.

(** An Invalid Date as [dueDate] stops [createTodo] and [updateTodo]
    before anything is sent: the [RangeError] of [toISOString] is what
    they throw. *)
Theorem invalid_date_rejected title d isCompleted id updateData s :
  todoApi.invalid_id id = false →
  get updateData "dueDate" = JDate None →
  let thrown : JsError :=
    {| class := RangeError; message := fault_message InvalidTimeValue |} in
  (run (todoApi.createTodo title (JStr d) (JDate None) isCompleted) s).1 = Throw thrown
  ∧ requests (run (todoApi.createTodo title (JStr d) (JDate None) isCompleted) s).2 = []
  ∧ (run (todoApi.updateTodo id updateData) s).1 = Throw thrown
  ∧ requests (run (todoApi.updateTodo id updateData) s).2 = [].
Proof.
  intros Hid Hdue.
  assert (∀ c, todoApi.createTodo_requestData title (JStr d) (JDate None) c
               = Throw {| class := RangeError;
                          message := fault_message InvalidTimeValue |}) as Hcreate.
  { intros c. unfold todoApi.createTodo_requestData.
    cbv [mbind mret Completion_bind Completion_ret]. reflexivity. }
  assert (todoApi.updateTodo_requestData updateData
          = Throw {| class := RangeError;
                     message := fault_message InvalidTimeValue |}) as Hupdate.
  { unfold todoApi.updateTodo_requestData.
    cbv [mbind mret Completion_bind Completion_ret]. rewrite Hdue. reflexivity. }
  unfold run. rewrite createTodo_world, updateTodo_world.
  unfold todoApi.createTodo, todoApi.updateTodo, todoApi.check_id, todoApi.rethrow.
  change (todoApi.or_default (JStr d) (JStr [])) with (JStr d).
  change (todoApi.or_default (JDate None) JNull) with (JDate None).
  rewrite !Hcreate, Hupdate, Hid.
  unfold_monad. done.
Qed.

Lemma updateTodo_requestData_values updateData requestData :
  todoApi.updateTodo_requestData updateData = Normal requestData →
  JSON_stringify requestData !! "title"
  = toJSON (todoApi.trimmed (get updateData "title"))
  ∧ JSON_stringify requestData !! "description"
    = toJSON (todoApi.trimmed (get updateData "description"))
  ∧ JSON_stringify requestData !! "dueDate"
    = toJSON (iso_or_self (get updateData "dueDate")).
Proof.
  intros ->%updateTodo_requestData_inv.
  unfold JSON_stringify. rewrite !lookup_omap, !lookup_put, !lookup_empty. simpl.
  rewrite ?andb_true_r, ?andb_false_r.
  split; [|split];
    match goal with
    | |- context [todoApi.defined ?v] =>
        destruct (todoApi.defined v) eqn:Hdef; simpl;
        first [done|apply defined_false in Hdef; by rewrite Hdef]
    end.
Qed.

(** The values of a PATCH body: a string [title] or [description] goes
    trimmed, a [Date] goes as its ISO text, [null] goes as [null] (this
    is how a due date is cleared), anything else as it is. *)
Theorem updateTodo_body_values id updateData s r doc :
  r ∈ requests (run (todoApi.updateTodo id updateData) s).2 →
  body r = Some doc →
  doc !! "title" = toJSON (todoApi.trimmed (get updateData "title"))
  ∧ doc !! "description" = toJSON (todoApi.trimmed (get updateData "description"))
  ∧ doc !! "dueDate" = toJSON (iso_or_self (get updateData "dueDate")).
Proof.
  unfold run. rewrite updateTodo_world. unfold requests. simpl.
  destruct (todoApi.invalid_id id); simpl; [by intros ?%elem_of_nil|].
  destruct (todoApi.updateTodo_requestData updateData) as [requestData|] eqn:Hrd;
    simpl; [|by intros ?%elem_of_nil].
  intros ->%list_elem_of_singleton [= <-].
  by apply updateTodo_requestData_values.
Qed.

Lemma invalid_id_iff id :
  todoApi.invalid_id id = true ↔ id = [] ∨ id = js "undefined" ∨ id = js "null".
Proof.
  split; [|apply invalid_id_listed].
  unfold todoApi.invalid_id. rewrite !orb_true_iff, !bool_decide_eq_true.
  intros [[Hempty| ->]| ->]; [|by right; left|by right; right].
  left. by destruct id.
Qed.

(** No other identifier is refused: [deleteTodo] sends nothing exactly
    for "", "undefined" and "null", and for any other string, blank or
    not, it sends the DELETE to the entity's URL. *)
Theorem deleteTodo_request id s :
  (requests (run (todoApi.deleteTodo id) s).2 = []
   ↔ id = [] ∨ id = js "undefined" ∨ id = js "null")
  ∧ (¬ (id = [] ∨ id = js "undefined" ∨ id = js "null") →
     requests (run (todoApi.deleteTodo id) s).2
     = [ {| method := DELETE; url := todoApi.API_BASE_URL ++ js "/" ++ id;
            headers := []; body := None |} ]).
Proof.
  unfold run. rewrite deleteTodo_world. unfold requests. simpl.
  rewrite <- invalid_id_iff.
  destruct (todoApi.invalid_id id); simpl; split; done.
Qed.

End RequestBodies.

(** ** The view: how each action merges what the client returns *)

Section Outcomes.
Context `{Host}.


Lemma createTodo_at t d u c w s :
  todoApi.createTodo t d u c w
  = ((run (todoApi.createTodo t d u c) s).1, (todoApi.createTodo t d u c w).2).
Proof.
  unfold run. rewrite (proj1 (proj2 (client_completion _ w))).
  apply surjective_pairing.
Qed.

Lemma updateTodo_at id ud w s :
  todoApi.updateTodo id ud w
  = ((run (todoApi.updateTodo id ud) s).1, (todoApi.updateTodo id ud w).2).
Proof.
  unfold run. rewrite (proj1 (proj2 (proj2 (client_completion _ w)))).
  apply surjective_pairing.
Qed.

Lemma deleteTodo_at id w s :
  todoApi.deleteTodo id w
  = ((run (todoApi.deleteTodo id) s).1, (todoApi.deleteTodo id w).2).
Proof.
  unfold run. rewrite (proj2 (proj2 (proj2 (client_completion _ w)))).
  apply surjective_pairing.
Qed.


(** [handleAddTodo], the title not being blank: the task the server
    returns goes to the head of the list and the form is emptied; on any
    failure the list and what was typed stay, and the banner takes the
    error's message. *)
Theorem handleAddTodo_outcome s :
  trim (AppState.titleInput s) ≠ [] →
  let call :=
    todoApi.createTodo (AppState.titleInput s) (JStr (AppState.descriptionInput s))
      (dueDate_of_input (AppState.dueDateInput s)) (JBool false) in
  let w := (run App.handleAddTodo s).2 in
  (∀ newTodo, (run call s).1 = Normal newTodo →
     AppState.todos (view w) = newTodo :: AppState.todos s
     ∧ AppState.titleInput (view w) = []
     ∧ AppState.descriptionInput (view w) = []
     ∧ AppState.dueDateInput (view w) = []
     ∧ AppState.errorMessage (view w) = [])
  ∧ (∀ e, (run call s).1 = Throw e →
       AppState.todos (view w) = AppState.todos s
       ∧ AppState.titleInput (view w) = AppState.titleInput s
       ∧ AppState.descriptionInput (view w) = AppState.descriptionInput s
       ∧ AppState.dueDateInput (view w) = AppState.dueDateInput s
       ∧ AppState.errorMessage (view w) = message e).
Proof.
  intros Htitle. unfold dueDate_of_input, run, App.handleAddTodo.
  unfold_setters. unfold_monad.
  destruct (trim (AppState.titleInput s)); [done|]. simpl.
  split; [intros newTodo Hc|intros e Hc];
    rewrite (createTodo_at _ _ _ _ _ s); unfold run;
    rewrite Hc, createTodo_world; simpl; done.
Qed.

(** [handleSaveEdit], the title not being blank: the task the server
    returns takes the place of every row with the identifier and the
    edit is closed; on any failure the list, the row being edited and the
    draft stay, and the banner takes the error's message. *)
Theorem handleSaveEdit_outcome todoId s updateData :
  trim (EditingData.title (AppState.editingData s)) ≠ [] →
  App.handleSaveEdit_updateData (AppState.editingData s) = Normal updateData →
  let w := (run (App.handleSaveEdit todoId) s).2 in
  (∀ updatedTodo,
     (run (todoApi.updateTodo todoId updateData) s).1 = Normal updatedTodo →
     AppState.todos (view w) = replace_todo todoId updatedTodo (AppState.todos s)
     ∧ AppState.editingTodoId (view w) = None
     ∧ AppState.editingData (view w) = App.blankEditingData
     ∧ AppState.errorMessage (view w) = [])
  ∧ (∀ e, (run (todoApi.updateTodo todoId updateData) s).1 = Throw e →
       AppState.todos (view w) = AppState.todos s
       ∧ AppState.editingTodoId (view w) = AppState.editingTodoId s
       ∧ AppState.editingData (view w) = AppState.editingData s
       ∧ AppState.errorMessage (view w) = message e).
Proof.
  intros Htitle Hud. unfold replace_todo, run, App.handleSaveEdit.
  unfold_setters. unfold_monad.
  destruct (trim (EditingData.title (AppState.editingData s))); [done|]. simpl.
  rewrite Hud. simpl.
  split; [intros updatedTodo Hc|intros e Hc];
    rewrite (updateTodo_at _ _ _ s); unfold run;
    rewrite Hc, updateTodo_world; simpl; done.
Qed.

(** A draft whose date text does not parse never reaches the client:
    [handleSaveEdit] shows the engine's [RangeError] and keeps the list,
    the row and the draft. *)
Theorem handleSaveEdit_invalid_date todoId s :
  trim (EditingData.title (AppState.editingData s)) ≠ [] →
  EditingData.dueDate (AppState.editingData s) ≠ [] →
  Date_parse (EditingData.dueDate (AppState.editingData s)) = None →
  let w := (run (App.handleSaveEdit todoId) s).2 in
  trace w = []
  ∧ AppState.errorMessage (view w) = fault_message InvalidTimeValue
  ∧ AppState.todos (view w) = AppState.todos s
  ∧ AppState.editingTodoId (view w) = AppState.editingTodoId s
  ∧ AppState.editingData (view w) = AppState.editingData s
  ∧ AppState.isLoading (view w) = false.
Proof.
  intros Htitle Hdraft Hparse. unfold run, App.handleSaveEdit.
  unfold_setters. unfold_monad.
  destruct (trim (EditingData.title (AppState.editingData s))); [done|]. simpl.
  unfold App.handleSaveEdit_updateData, toISOString. rewrite Hparse.
  destruct (EditingData.dueDate (AppState.editingData s)); [done|]. simpl. done.
Qed.

(** [handleToggleComplete] asks for the opposite of the flag the row
    shows and nothing else; the row then shows what the server returned,
    and on any failure the list stays. *)
Theorem handleToggleComplete_outcome todo s :
  todoApi.invalid_id (TodoItem._id todo) = false →
  let call :=
    todoApi.updateTodo (TodoItem._id todo)
      {[ "isCompleted" := JBool (negb (TodoItem.isCompleted todo)) ]} in
  let w := (run (App.handleToggleComplete todo) s).2 in
  requests w
  = [ {| method := PATCH;
         url := todoApi.API_BASE_URL ++ js "/" ++ TodoItem._id todo;
         headers := todoApi.json_headers;
         body := Some {[ "isCompleted" :=
                           JsonBool (negb (TodoItem.isCompleted todo)) ]} |} ]
  ∧ (∀ updatedTodo, (run call s).1 = Normal updatedTodo →
       AppState.todos (view w)
       = replace_todo (TodoItem._id todo) updatedTodo (AppState.todos s)
       ∧ AppState.errorMessage (view w) = [])
  ∧ (∀ e, (run call s).1 = Throw e →
       AppState.todos (view w) = AppState.todos s
       ∧ AppState.errorMessage (view w) = message e).
Proof.
  intros Hid. unfold replace_todo, run, App.handleToggleComplete.
  unfold_setters. unfold_monad.
  assert (todoApi.updateTodo_requestData
            {[ "isCompleted" := JBool (negb (TodoItem.isCompleted todo)) ]}
          = Normal {[ "isCompleted" := JBool (negb (TodoItem.isCompleted todo)) ]})
    as Hrd.
  { unfold todoApi.updateTodo_requestData.
    cbv [mbind mret Completion_bind Completion_ret]. simpl.
    by destruct (TodoItem.isCompleted todo). }
  split; [|split]; [|intros updatedTodo Hc|intros e Hc];
    rewrite (updateTodo_at _ _ _ s); unfold run;
    try rewrite Hc; rewrite updateTodo_world, Hid, Hrd;
    try (destruct ((todoApi.updateTodo _ _ _).1)); simpl; try done.
  all: unfold requests, JSON_stringify; simpl; by rewrite omap_singleton_Some.
Qed.


End Outcomes.

(** ** The view: opening and closing the editor *)

Section Editor.
Context `{Host} `{Zone}.






(** A task with no due date, or an empty one, opens with an empty date
    field; one whose date does not parse opens with the text the
    getters of an Invalid Date give. *)
Theorem dueDateStr_edge d :
  App.dueDateStr None = []
  ∧ App.dueDateStr (Some []) = []
  ∧ (d ≠ [] → Date_parse d = None →
     App.dueDateStr (Some d) = js "NaN-NaN-NaNTNaN:NaN").
Proof.
  split; [done|]. split; [done|]. intros Hd Hparse.
  unfold App.dueDateStr. rewrite Hparse. destruct d; [done|]. simpl.
  vm_compute. reflexivity.
Qed.

(** Opening the editor on a row and cancelling leaves the view as a
    plain cancel does; from a view that was not editing, that is the
    view itself.  Nothing is sent. *)
Theorem start_then_cancel todo s :
  run (App.handleStartEdit todo;; App.handleCancelEdit) s
  = run App.handleCancelEdit s
  ∧ (AppState.editingTodoId s = None →
     AppState.editingData s = App.blankEditingData →
     run (App.handleStartEdit todo;; App.handleCancelEdit) s
     = (Normal tt, {| view := s; trace := [] |})).
Proof.
  unfold run, App.handleStartEdit, App.handleCancelEdit.
  unfold_setters. unfold_monad. split; [done|].
  destruct s; simpl. by intros -> ->.
Qed.

Lemma not_blank t : trim t ≠ [] → negb (truthy (trim t)) = false.
Proof. by destruct (trim t). Qed.

(** The document [updateTodo] writes for the object literal of
    [handleSaveEdit]. *)
Lemma updateTodo_requestData_literal t d b :
  ∃ requestData,
    todoApi.updateTodo_requestData
      (<["isCompleted" := JBool b]> (<["description" := JStr d]> {[ "title" := JStr t ]}))
    = Normal requestData
    ∧ JSON_stringify requestData
      = <["isCompleted" := JsonBool b]>
          (<["description" := JsonStr (trim d)]> {[ "title" := JsonStr (trim t) ]}).
Proof.
  exists (<["isCompleted" := JBool b]>
            (<["description" := JStr (trim d)]> (<["title" := JStr (trim t)]> ∅))).
  split.
  - unfold todoApi.updateTodo_requestData.
    cbv [mbind mret Completion_bind Completion_ret]. simpl. by destruct b.
  - unfold JSON_stringify.
    by erewrite !omap_insert_Some, omap_empty by reflexivity.
Qed.

(** Opening the editor on a task without a due date and saving at once
    sends the task's own title and description, trimmed, and its flag,
    and no [dueDate]. *)
Theorem start_then_save todo s :
  trim (TodoItem.title todo) ≠ [] →
  todoApi.invalid_id (TodoItem._id todo) = false →
  TodoItem.dueDate todo = None →
  requests (run (App.handleStartEdit todo;;
                 App.handleSaveEdit (TodoItem._id todo)) s).2
  = [ {| method := PATCH;
         url := todoApi.API_BASE_URL ++ js "/" ++ TodoItem._id todo;
         headers := todoApi.json_headers;
         body := Some
           (<["isCompleted" := JsonBool (TodoItem.isCompleted todo)]>
              (<["description" :=
                   JsonStr (trim (default [] (TodoItem.description todo)))]>
                 {[ "title" := JsonStr (trim (TodoItem.title todo)) ]})) |} ].
Proof.
  intros Htitle%not_blank Hid Hdue.
  destruct (updateTodo_requestData_literal (TodoItem.title todo)
              (default [] (TodoItem.description todo)) (TodoItem.isCompleted todo))
    as (requestData & Hrd & Hdoc).
  unfold run, App.handleStartEdit, App.handleSaveEdit.
  unfold_setters. unfold_monad.
  rewrite Htitle, Hdue. simpl.
  unfold App.handleSaveEdit_updateData. simpl. rewrite orb_false_r.
  rewrite (updateTodo_at _ _ _ s), updateTodo_world, Hid, Hrd, Hdoc.
  by destruct (run _ s).1.
Qed.

Lemma no_row_with_id id (l : list TodoItem.t) :
  id ∉ TodoItem._id <$> l →
  List.filter (λ row, bool_decide (Some id = Some (TodoItem._id row))) l = [].
Proof.
  induction l as [|row l IH]; simpl; [done|].
  rewrite not_elem_of_cons. intros [Hne Hnotin].
  case_bool_decide as Heq; [congruence|]. by apply IH.
Qed.

(** The editor is on one row, the one that was opened: on a list whose
    identifiers differ from row to row, after [handleStartEdit] on a
    listed task the rows that pass [editingTodoId === todo._id] are that
    task's row and no other, whichever row was being edited before. *)
Theorem edit_mode_exclusive todo s :
  NoDup (TodoItem._id <$> AppState.todos s) →
  todo ∈ AppState.todos s →
  let s' := view (run (App.handleStartEdit todo) s).2 in
  List.filter (App.row_in_edit_mode s') (AppState.todos s') = [todo].
Proof.
  unfold run, App.handleStartEdit, App.row_in_edit_mode.
  unfold_setters. unfold_monad.
  induction (AppState.todos s) as [|row l IH]; simpl.
  - by intros _ ?%elem_of_nil.
  - intros [Hnotin Hl]%NoDup_cons [->|Hin]%elem_of_cons.
    + rewrite bool_decide_eq_true_2 by done. by rewrite no_row_with_id.
    + rewrite bool_decide_eq_false_2; [by apply IH|].
      intros [= Hid]. apply Hnotin. rewrite <- Hid.
      by apply list_elem_of_fmap_2.
Qed.

(** [handleStartEdit] puts exactly the rows with the task's identifier
    in edit mode, and [handleCancelEdit] none. *)
Theorem edit_mode_follows todo row s :
  (App.row_in_edit_mode (view (run (App.handleStartEdit todo) s).2) row = true
   ↔ TodoItem._id row = TodoItem._id todo)
  ∧ App.row_in_edit_mode (view (run App.handleCancelEdit s).2) row = false.
Proof.
  unfold run, App.handleStartEdit, App.handleCancelEdit, App.row_in_edit_mode.
  unfold_setters. unfold_monad.
  rewrite bool_decide_eq_true. split; [|done]. split; congruence.
Qed.

End Editor.

(** ** The view: what no action does *)

Section Guards.
Context `{Host}.

Lemma handleAddTodo_trace s :
  trace (run App.handleAddTodo s).2
  = if negb (truthy (trim (AppState.titleInput s))) then []
    else Called OpCreateTodo ::
         match todoApi.createTodo_requestData (AppState.titleInput s)
                 (JStr (AppState.descriptionInput s))
                 (dueDate_of_input (AppState.dueDateInput s)) (JBool false) with
         | Normal requestData =>
             [Sent {| method := POST; url := todoApi.API_BASE_URL;
                      headers := todoApi.json_headers;
                      body := Some (JSON_stringify requestData) |}]
         | Throw _ => []
         end.
Proof.
  unfold dueDate_of_input, run, App.handleAddTodo. unfold_setters. unfold_monad.
  destruct (negb _); simpl; [reflexivity|].
  rewrite (createTodo_at _ _ _ _ _ s), createTodo_world.
  destruct (run _ s).1; simpl;
    by destruct (truthy (AppState.dueDateInput s)).
Qed.

Lemma handleToggleComplete_trace todo s :
  trace (run (App.handleToggleComplete todo) s).2
  = Called OpUpdateTodo ::
    if todoApi.invalid_id (TodoItem._id todo) then []
    else match todoApi.updateTodo_requestData
                 {[ "isCompleted" := JBool (negb (TodoItem.isCompleted todo)) ]} with
         | Normal requestData =>
             [Sent {| method := PATCH;
                      url := todoApi.API_BASE_URL ++ js "/" ++ TodoItem._id todo;
                      headers := todoApi.json_headers;
                      body := Some (JSON_stringify requestData) |}]
         | Throw _ => []
         end.
Proof.
  unfold run, App.handleToggleComplete. unfold_setters. unfold_monad.
  rewrite (updateTodo_at _ _ _ s), updateTodo_world.
  by destruct (run _ s).1.
Qed.

Lemma handleDeleteTodo_trace todoId s :
  trace (run (App.handleDeleteTodo todoId) s).2
  = if negb (confirm (js "정말로 이 할일을 삭제하시겠습니까?")) then []
    else Called OpDeleteTodo ::
         if todoApi.invalid_id todoId then []
         else [Sent {| method := DELETE;
                       url := todoApi.API_BASE_URL ++ js "/" ++ todoId;
                       headers := []; body := None |}].
Proof.
  unfold run, App.handleDeleteTodo. unfold_setters. unfold_monad.
  destruct (negb _); simpl; [reflexivity|].
  rewrite (deleteTodo_at _ _ s), deleteTodo_world.
  by destruct (run _ s).1.
Qed.

(** No action retries or fans out: each of the five sends one request
    at most. *)
Theorem one_request_per_action todo todoId s :
  (length (requests (run App.loadTodos s).2) ≤ 1)%nat
  ∧ (length (requests (run App.handleAddTodo s).2) ≤ 1)%nat
  ∧ (length (requests (run (App.handleSaveEdit todoId) s).2) ≤ 1)%nat
  ∧ (length (requests (run (App.handleToggleComplete todo) s).2) ≤ 1)%nat
  ∧ (length (requests (run (App.handleDeleteTodo todoId) s).2) ≤ 1)%nat.
Proof.
  unfold requests.
  rewrite loadTodos_trace, handleAddTodo_trace, handleSaveEdit_trace,
    handleToggleComplete_trace, handleDeleteTodo_trace.
  split; [|split; [|split; [|split]]]; case_match_all; simpl; lia.
Qed.

Lemma createTodo_requestData_title title d dueDate isCompleted requestData :
  todoApi.createTodo_requestData title (JStr d) dueDate isCompleted
  = Normal requestData →
  JSON_stringify requestData !! "title" = Some (JsonStr (trim title)).
Proof.
  destruct (decide (dueDate = JDate None)) as [->|Hdate].
  - unfold todoApi.createTodo_requestData.
    cbv [mbind mret Completion_bind Completion_ret]. simpl. done.
  - rewrite (createTodo_requestData_valid _ _ _ _ Hdate). intros [= <-].
    unfold JSON_stringify. rewrite lookup_omap.
    destruct isCompleted; simpl;
      rewrite ?lookup_insert_ne by done;
      rewrite !lookup_put; simpl; rewrite ?andb_false_r;
      by rewrite lookup_singleton_eq.
Qed.

(** The guard of the view keeps an empty title from the server: every
    POST of [handleAddTodo] and every PATCH of [handleSaveEdit] carries a
    [title] that is trimmed and is not the empty string. *)
Theorem sent_title_never_blank todoId s r doc :
  (r ∈ requests (run App.handleAddTodo s).2 → body r = Some doc →
   doc !! "title" = Some (JsonStr (trim (AppState.titleInput s)))
   ∧ trim (AppState.titleInput s) ≠ [])
  ∧ (r ∈ requests (run (App.handleSaveEdit todoId) s).2 → body r = Some doc →
     doc !! "title"
     = Some (JsonStr (trim (EditingData.title (AppState.editingData s))))
     ∧ trim (EditingData.title (AppState.editingData s)) ≠ []).
Proof.
  unfold requests. rewrite handleAddTodo_trace, handleSaveEdit_trace. split.
  - destruct (trim (AppState.titleInput s)) eqn:Ht; simpl;
      [by intros ?%elem_of_nil|].
    destruct (todoApi.createTodo_requestData _ _ _ _) as [requestData|] eqn:Hrd;
      simpl; [|by intros ?%elem_of_nil].
    intros ->%list_elem_of_singleton [= <-].
    rewrite (createTodo_requestData_title _ _ _ _ _ Hrd), Ht. done.
  - destruct (trim (EditingData.title (AppState.editingData s))) eqn:Ht; simpl;
      [by intros ?%elem_of_nil|].
    destruct (App.handleSaveEdit_updateData _) as [updateData|] eqn:Hud;
      simpl; [|by intros ?%elem_of_nil].
    destruct (todoApi.invalid_id todoId); simpl; [by intros ?%elem_of_nil|].
    destruct (todoApi.updateTodo_requestData updateData) as [requestData|] eqn:Hrd;
      simpl; [|by intros ?%elem_of_nil].
    intros ->%list_elem_of_singleton [= <-].
    rewrite (proj1 (updateTodo_requestData_values _ _ Hrd)).
    assert (get updateData "title"
            = JStr (EditingData.title (AppState.editingData s))) as ->.
    { revert Hud. unfold App.handleSaveEdit_updateData, toISOString.
      cbv [mbind mret Completion_bind Completion_ret].
      destruct (truthy _); [destruct (Date_parse _); [|done]|];
        intros [= <-]; unfold get;
        by rewrite !lookup_insert_ne, lookup_singleton_eq. }
    simpl. by rewrite Ht.
Qed.

Lemma invalid_id_throws id updateData w :
  todoApi.invalid_id id = true →
  (todoApi.deleteTodo id w).1
  = Throw {| class := Error; message := js "유효하지 않은 할일 ID입니다" |}
  ∧ (todoApi.updateTodo id updateData w).1
    = Throw {| class := Error; message := js "유효하지 않은 할일 ID입니다" |}.
Proof.
  intros Hid.
  unfold todoApi.deleteTodo, todoApi.updateTodo, todoApi.check_id, todoApi.rethrow.
  unfold_monad. rewrite Hid. simpl. done.
Qed.

(** A row whose identifier the client refuses: deleting it (the user
    having confirmed) or toggling it sends nothing, shows the validation
    message and leaves the list as it was, with the flag cleared. *)
Theorem refused_id_in_view todo todoId s :
  confirm (js "정말로 이 할일을 삭제하시겠습니까?") = true →
  todoApi.invalid_id todoId = true →
  todoApi.invalid_id (TodoItem._id todo) = true →
  let shows (w : World) :=
    requests w = []
    ∧ AppState.errorMessage (view w) = js "유효하지 않은 할일 ID입니다"
    ∧ AppState.todos (view w) = AppState.todos s
    ∧ AppState.isLoading (view w) = false in
  shows (run (App.handleDeleteTodo todoId) s).2
  ∧ shows (run (App.handleToggleComplete todo) s).2.
Proof.
  intros Hconfirm Hid Hid'. simpl.
  unfold requests. rewrite handleDeleteTodo_trace, handleToggleComplete_trace.
  rewrite Hconfirm, Hid, Hid'. simpl.
  unfold run, App.handleDeleteTodo, App.handleToggleComplete.
  unfold_setters. unfold_monad. rewrite Hconfirm. simpl.
  rewrite (deleteTodo_at _ _ s), (updateTodo_at _ _ _ s). unfold run.
  rewrite (proj1 (invalid_id_throws _ ∅ _ Hid)).
  rewrite (proj2 (invalid_id_throws _ _ _ Hid')).
  rewrite deleteTodo_world, updateTodo_world. simpl. done.
Qed.

(** The number of rows: saving and toggling never change it, deleting
    never raises it, adding raises it by one at most. *)
Theorem list_size todo todoId s :
  length (AppState.todos (view (run (App.handleSaveEdit todoId) s).2))
  = length (AppState.todos s)
  ∧ length (AppState.todos (view (run (App.handleToggleComplete todo) s).2))
    = length (AppState.todos s)
  ∧ (length (AppState.todos (view (run (App.handleDeleteTodo todoId) s).2))
     ≤ length (AppState.todos s))%nat
  ∧ (length (AppState.todos s)
     ≤ length (AppState.todos (view (run App.handleAddTodo s).2))
     ≤ S (length (AppState.todos s)))%nat.
Proof.
  unfold run, App.handleSaveEdit, App.handleToggleComplete,
    App.handleDeleteTodo, App.handleAddTodo.
  unfold_setters. unfold_monad.
  split; [|split; [|split]].
  - destruct (negb _); simpl; [done|].
    destruct (App.handleSaveEdit_updateData _); simpl; [|done].
    rewrite (updateTodo_at _ _ _ s), updateTodo_world.
    destruct (run _ s).1; simpl; [apply length_fmap|done].
  - rewrite (updateTodo_at _ _ _ s), updateTodo_world.
    destruct (run _ s).1; simpl; [apply length_fmap|done].
  - destruct (negb _); simpl; [done|].
    rewrite (deleteTodo_at _ _ s), deleteTodo_world.
    destruct (run _ s).1; simpl; [apply filter_length_le|done].
  - destruct (negb _); simpl; [lia|].
    rewrite (createTodo_at _ _ _ _ _ s), createTodo_world.
    destruct (run _ s).1; simpl; lia.
Qed.

(** Once a load has completed the list area shows the rows, or the
    empty message when there is none: never the loading message. *)
Theorem list_body_after_load s :
  let s' := view (run App.loadTodos s).2 in
  App.list_body s'
  = match AppState.todos s' with
    | [] => App.EmptyMessage
    | _ :: _ => App.Rows (AppState.todos s')
    end.
Proof.
  simpl. unfold App.list_body.
  assert (AppState.isLoading (view (run App.loadTodos s).2) = false) as ->.
  { unfold run, App.loadTodos.
    cbv [mbind M_bind mret M_ret render set_view App.setIsLoading
         App.setErrorMessage].
    apply finally_clears_loading. }
  simpl. by destruct (AppState.todos _).
Qed.

End Guards.

(** ** Instances of the further properties *)

Lemma handleResponseError_json_message_witness :
  @todoApi.handleResponseError missing unit (respond 404 (Some boom_body))
  = Throw {| class := Error; message := js "boom" |}.
Proof.
  apply (@handleResponseError_json_message missing unit
           (respond 404 (Some boom_body)) boom_body
           (JsonObj [(js "message", JsonStr (js "boom"))]) (js "boom"));
    vm_compute; first [reflexivity|discriminate].
Defined.

Lemma handleResponseError_json_error_witness :
  @todoApi.handleResponseError online unit (respond 400 (Some nope_body))
  = Throw {| class := Error; message := js "nope" |}.
Proof.
  apply (@handleResponseError_json_error online unit
           (respond 400 (Some nope_body)) nope_body
           (JsonObj [(js "message", JsonStr []); (js "error", JsonStr (js "nope"))])
           (js "nope")).
  - reflexivity.
  - vm_compute. reflexivity.
  - intros v. vm_compute. by intros [= <-].
  - vm_compute. reflexivity.
  - vm_compute. discriminate.
Defined.

Lemma handleResponseError_generic_witness :
  @todoApi.handleResponseError online unit (respond 502 (Some []))
  = Throw {| class := Error; message := js "서버 오류 (502)" |}
  ∧ @todoApi.handleResponseError online unit (respond 418 (Some (js "{}")))
    = Throw {| class := Error; message := js "서버 오류 (418)" |}.
Proof.
  split.
  - refine (eq_trans (@handleResponseError_generic online unit
                        (respond 502 (Some [])) [] eq_refl _) _).
    + left. split; [reflexivity|]. vm_compute. reflexivity.
    + vm_compute. reflexivity.
  - refine (eq_trans (@handleResponseError_generic online unit
                        (respond 418 (Some (js "{}"))) (js "{}") eq_refl _) _).
    + right. exists (JsonObj []). split; [vm_compute; reflexivity|].
      intros name v _. vm_compute. discriminate.
    + vm_compute. reflexivity.
Defined.

Lemma handleResponseError_unreadable_witness :
  @todoApi.handleResponseError online unit (respond 403 None)
  = Throw {| class := Error; message := js "접근 권한이 없습니다." |}
  ∧ @todoApi.handleResponseError online unit (respond 502 None)
    = Throw {| class := Error; message := js "서버 오류 (" ++ of_N 502 ++ js ")" |}.
Proof.
  pose proof (@handleResponseError_unreadable online unit (respond 403 None) eq_refl)
    as (_ & _ & H403 & _).
  pose proof (@handleResponseError_unreadable online unit (respond 502 None) eq_refl)
    as (_ & _ & _ & _ & Hother).
  split; [apply H403; reflexivity|apply Hother].
  vm_compute. intros Hin.
  repeat (apply elem_of_cons in Hin as [Hin|Hin]; [discriminate Hin|]).
  by apply elem_of_nil in Hin.
Defined.

Lemma fetchTodos_returns_witness :
  (run (@todoApi.fetchTodos online (Some true)) App.initial).1 = Normal [buy_milk].
Proof.
  apply (@fetchTodos_returns online (Some true) App.initial
           (respond 200 (Some (js "[]"))) (js "[]") [buy_milk]);
    first [reflexivity|intros r; reflexivity].
Defined.

Lemma fetchTodos_network_error_witness :
  ∃ rest,
    (run (@todoApi.fetchTodos unreachable None) App.initial).1
    = Throw {| class := Error;
               message := js "백엔드 서버(" ++ @todoApi.API_BASE_URL unreachable
                          ++ js ")에 연결할 수 없습니다." ++ rest |}.
Proof.
  apply (@fetchTodos_network_error unreachable None App.initial
           (js "Failed to fetch")).
  - intros r. reflexivity.
  - vm_compute. reflexivity.
Defined.

Lemma mutations_network_error_witness :
  let thrown := {| class := TypeError; message := js "Load failed" |} in
  (run (@todoApi.createTodo offline (js "a") JUndefined JUndefined JUndefined)
     App.initial).1 = Throw thrown
  ∧ (run (@todoApi.updateTodo offline (js "42") sample_update) App.initial).1
    = Throw thrown
  ∧ (run (@todoApi.deleteTodo offline (js "42")) App.initial).1 = Throw thrown.
Proof.
  refine (@mutations_network_error offline (js "a") JUndefined JUndefined JUndefined
            (js "42") sample_update App.initial (js "Load failed") _ _ _ _ _ _).
  - intros r. reflexivity.
  - vm_compute. reflexivity.
  - vm_compute. reflexivity.
  - vm_compute. reflexivity.
Defined.

Lemma http_error_propagates_witness :
  let e := {| class := Error; message := js "boom" |} in
  (run (@todoApi.fetchTodos missing None) App.initial).1 = Throw e
  ∧ (run (@todoApi.createTodo missing (js "a") JUndefined JUndefined JUndefined)
       App.initial).1 = Throw e
  ∧ (run (@todoApi.updateTodo missing (js "42") sample_update) App.initial).1
    = Throw e
  ∧ (run (@todoApi.deleteTodo missing (js "42")) App.initial).1 = Throw e.
Proof.
  refine (@http_error_propagates missing (js "a") JUndefined JUndefined JUndefined
            (js "42") sample_update None App.initial
            (respond 404 (Some boom_body)) _ _ _ _ _ _ _ _ _ _).
  - intros r. reflexivity.
  - reflexivity.
  - vm_compute. reflexivity.
  - reflexivity.
  - vm_compute. reflexivity.
  - vm_compute. reflexivity.
  - vm_compute. reflexivity.
Defined.

Lemma deleteTodo_succeeds_iff_ok_witness :
  (run (@todoApi.deleteTodo declining (js "42")) App.initial).1 = Normal tt
  ↔ ok (respond 204 None) = true.
Proof.
  apply (@deleteTodo_succeeds_iff_ok declining (js "42") App.initial
           (respond 204 None)).
  - vm_compute. reflexivity.
  - intros r. reflexivity.
Defined.

Lemma createTodo_body_witness :
  ∃ doc,
    requests (run (@todoApi.createTodo online (js " Pay rent ") (JStr (js "  "))
                     (JDate (Some (js "2026-01-01T00:00:00.000Z"))) JNull)
                App.initial).2
    = [ {| method := POST; url := @todoApi.API_BASE_URL online;
           headers := todoApi.json_headers; body := Some doc |} ]
    ∧ doc !! "title" = Some (JsonStr (trim (js " Pay rent ")))
    ∧ doc !! "description"
      = (if truthy (trim (js "  ")) then Some (JsonStr (trim (js "  "))) else None)
    ∧ doc !! "dueDate"
      = (if ToBoolean (JDate (Some (js "2026-01-01T00:00:00.000Z")))
         then toJSON (iso_or_self (JDate (Some (js "2026-01-01T00:00:00.000Z"))))
         else None)
    ∧ doc !! "isCompleted" = None.
Proof.
  apply (@createTodo_body online (js " Pay rent ") (js "  ")
           (JDate (Some (js "2026-01-01T00:00:00.000Z"))) JNull App.initial).
  discriminate.
Defined.

Lemma invalid_date_rejected_witness :
  let thrown := {| class := RangeError; message := js "Invalid time value" |} in
  (run (@todoApi.createTodo online (js "a") (JStr []) (JDate None) JUndefined)
     App.initial).1 = Throw thrown
  ∧ requests (run (@todoApi.createTodo online (js "a") (JStr []) (JDate None)
                     JUndefined) App.initial).2 = []
  ∧ (run (@todoApi.updateTodo online (js "42") {[ "dueDate" := JDate None ]})
       App.initial).1 = Throw thrown
  ∧ requests (run (@todoApi.updateTodo online (js "42") {[ "dueDate" := JDate None ]})
                App.initial).2 = [].
Proof.
  apply (@invalid_date_rejected online (js "a") [] JUndefined (js "42")
           {[ "dueDate" := JDate None ]} App.initial);
    vm_compute; reflexivity.
Defined.

Lemma updateTodo_body_values_witness :
  ∃ doc, body clearing_patch = Some doc
    ∧ doc !! "title" = Some (JsonStr (js "x"))
    ∧ doc !! "description" = Some (JsonNum (js "5"))
    ∧ doc !! "dueDate" = Some JsonNull.
Proof.
  eexists. split; [reflexivity|].
  refine (@updateTodo_body_values online (js "42") clearing_update App.initial
            clearing_patch _ _ eq_refl).
  vm_compute. apply list_elem_of_here.
Defined.

Lemma deleteTodo_request_witness :
  requests (run (@todoApi.deleteTodo online (js " ")) App.initial).2
  = [ {| method := DELETE; url := @todoApi.API_BASE_URL online ++ js "/" ++ js " ";
         headers := []; body := None |} ].
Proof.
  apply (proj2 (@deleteTodo_request online (js " ") App.initial)).
  vm_compute. intros [Hid|[Hid|Hid]]; discriminate Hid.
Defined.


Lemma handleAddTodo_outcome_witness :
  (let w := (run (@App.handleAddTodo online) busy_view).2 in
   AppState.todos (view w) = [buy_milk; buy_milk]
   ∧ AppState.titleInput (view w) = []
   ∧ AppState.descriptionInput (view w) = []
   ∧ AppState.dueDateInput (view w) = []
   ∧ AppState.errorMessage (view w) = [])
  ∧ (let w := (run (@App.handleAddTodo missing) busy_view).2 in
     AppState.todos (view w) = [buy_milk]
     ∧ AppState.titleInput (view w) = js "Walk dog"
     ∧ AppState.descriptionInput (view w) = []
     ∧ AppState.dueDateInput (view w) = []
     ∧ AppState.errorMessage (view w) = js "boom").
Proof.
  assert (trim (AppState.titleInput busy_view) ≠ []) as Htitle
    by (vm_compute; discriminate).
  split.
  - apply (proj1 (@handleAddTodo_outcome online busy_view Htitle) buy_milk).
    vm_compute. reflexivity.
  - apply (proj2 (@handleAddTodo_outcome missing busy_view Htitle)
             {| class := Error; message := js "boom" |}).
    vm_compute. reflexivity.
Defined.

Lemma handleSaveEdit_outcome_witness :
  (let w := (run (@App.handleSaveEdit online (js "42")) busy_view).2 in
   AppState.todos (view w) = replace_todo (js "42") buy_milk [buy_milk]
   ∧ AppState.editingTodoId (view w) = None
   ∧ AppState.editingData (view w) = App.blankEditingData
   ∧ AppState.errorMessage (view w) = [])
  ∧ (let w := (run (@App.handleSaveEdit missing (js "42")) busy_view).2 in
     AppState.todos (view w) = [buy_milk]
     ∧ AppState.editingTodoId (view w) = Some (js "42")
     ∧ AppState.editingData (view w) = draft (js "Buy oat milk") []
     ∧ AppState.errorMessage (view w) = js "boom").
Proof.
  assert (trim (EditingData.title (AppState.editingData busy_view)) ≠ []) as Htitle
    by (vm_compute; discriminate).
  split.
  - refine (proj1 (@handleSaveEdit_outcome online (js "42") busy_view _ Htitle
                     eq_refl) buy_milk _).
    vm_compute. reflexivity.
  - refine (proj2 (@handleSaveEdit_outcome missing (js "42") busy_view _ Htitle
                     eq_refl) {| class := Error; message := js "boom" |} _).
    vm_compute. reflexivity.
Defined.

Lemma handleSaveEdit_invalid_date_witness :
  let w := (run (@App.handleSaveEdit online (js "42")) bad_draft_view).2 in
  trace w = []
  ∧ AppState.errorMessage (view w) = js "Invalid time value"
  ∧ AppState.todos (view w) = [buy_milk]
  ∧ AppState.editingTodoId (view w) = Some (js "42")
  ∧ AppState.editingData (view w) = draft (js "Buy milk") (js "soon")
  ∧ AppState.isLoading (view w) = false.
Proof.
  apply (@handleSaveEdit_invalid_date online (js "42") bad_draft_view);
    vm_compute; first [reflexivity|discriminate].
Defined.

Lemma handleToggleComplete_outcome_witness :
  let w := (run (@App.handleToggleComplete online buy_milk) busy_view).2 in
  requests w
  = [ {| method := PATCH;
         url := @todoApi.API_BASE_URL online ++ js "/" ++ js "42";
         headers := todoApi.json_headers;
         body := Some {[ "isCompleted" := JsonBool true ]} |} ]
  ∧ (AppState.todos (view w) = replace_todo (js "42") buy_milk [buy_milk]
     ∧ AppState.errorMessage (view w) = []).
Proof.
  assert (todoApi.invalid_id (TodoItem._id buy_milk) = false) as Hid
    by (vm_compute; reflexivity).
  pose proof (@handleToggleComplete_outcome online buy_milk busy_view Hid)
    as (Hreq & Hok & _).
  split; [exact Hreq|]. apply (Hok buy_milk). vm_compute. reflexivity.
Defined.



(** The field shows new year's morning, Seoul time. *)
Example dueDateStr_seoul :
  @App.dueDateStr online seoul (Some (js "2026-01-01T00:00:00.000Z"))
  = js "2026-01-01T09:00".
Proof. vm_compute. reflexivity. Qed.

Lemma dueDateStr_edge_witness :
  @App.dueDateStr online seoul (Some (js "soon")) = js "NaN-NaN-NaNTNaN:NaN".
Proof.
  apply (proj2 (proj2 (@dueDateStr_edge online seoul (js "soon"))));
    vm_compute; first [reflexivity|discriminate].
Defined.

Lemma start_then_cancel_witness :
  run (@App.handleStartEdit online seoul due_task;; App.handleCancelEdit) App.initial
  = (Normal tt, {| view := App.initial; trace := [] |}).
Proof.
  apply (proj2 (@start_then_cancel online seoul due_task App.initial));
    reflexivity.
Defined.

Lemma start_then_save_witness :
  requests (run (@App.handleStartEdit online seoul buy_milk;;
                 @App.handleSaveEdit online (TodoItem._id buy_milk)) App.initial).2
  = [ {| method := PATCH;
         url := @todoApi.API_BASE_URL online ++ js "/" ++ TodoItem._id buy_milk;
         headers := todoApi.json_headers;
         body := Some
           (<["isCompleted" := JsonBool (TodoItem.isCompleted buy_milk)]>
              (<["description" :=
                   JsonStr (trim (default [] (TodoItem.description buy_milk)))]>
                 {[ "title" := JsonStr (trim (TodoItem.title buy_milk)) ]})) |} ].
Proof.
  apply (@start_then_save online seoul buy_milk App.initial);
    vm_compute; first [reflexivity|discriminate].
Defined.

(** Among three rows, the first being edited: opening the second puts
    the second alone in edit mode. *)
Lemma edit_mode_exclusive_witness :
  let s' := view (run (@App.handleStartEdit online seoul due_task) crowded_view).2 in
  List.filter (App.row_in_edit_mode s') (AppState.todos s') = [due_task].
Proof.
  apply (@edit_mode_exclusive online seoul due_task crowded_view).
  - apply (bool_decide_unpack _). vm_compute. exact I.
  - vm_compute. apply list_elem_of_further, list_elem_of_here.
Defined.

Lemma sent_title_never_blank_witness :
  (∃ doc, body busy_post = Some doc
     ∧ doc !! "title" = Some (JsonStr (trim (js "Walk dog")))
     ∧ trim (js "Walk dog") ≠ [])
  ∧ (∃ doc, body busy_save = Some doc
       ∧ doc !! "title" = Some (JsonStr (trim (js "Buy oat milk")))
       ∧ trim (js "Buy oat milk") ≠ []).
Proof.
  split; eexists; (split; [reflexivity|]).
  - refine (proj1 (@sent_title_never_blank online (js "42") busy_view busy_post _)
              _ eq_refl).
    vm_compute. apply list_elem_of_here.
  - refine (proj2 (@sent_title_never_blank online (js "42") busy_view busy_save _)
              _ eq_refl).
    vm_compute. apply list_elem_of_here.
Defined.

Lemma refused_id_in_view_witness :
  let shows (w : World) :=
    requests w = []
    ∧ AppState.errorMessage (view w) = js "유효하지 않은 할일 ID입니다"
    ∧ AppState.todos (view w) = AppState.todos busy_view
    ∧ AppState.isLoading (view w) = false in
  shows (run (@App.handleDeleteTodo online (js "null")) busy_view).2
  ∧ shows (run (@App.handleToggleComplete online orphan_task) busy_view).2.
Proof.
  apply (@refused_id_in_view online orphan_task (js "null") busy_view);
    vm_compute; reflexivity.
Defined.
